(** * Budget tracker (app.py): transaction store and derived views

    A shallow embedding of the server logic of [app.py]:

    - the reactive cell [budget_data], a pandas frame of transactions that
      every handler reads through the same reference;
    - the render functions [month_selector], [monthly_totals] and
      [all_transactions];
    - the effects [add_new_transaction] and [clear_all_data].

    Handlers are written in a small state-and-exception monad whose state is
    the frame the reactive cell currently refers to.  An in-place column
    assignment ([data['YearMonth'] = ...]) is an update of that state; a
    [budget_data.set] replaces it; [data.copy()] yields a plain value.

    Two library behaviours are kept as interfaces:

    - the arithmetic of amounts is the class [Number]: zero, addition,
      rounding to two places and the rendering [f"${x:,.2f}"].  The
      instance [binary64] is the IEEE 754 double of the source; the
      instance [cents] (integers counting hundredths) is exact decimal
      arithmetic, the reference the float results are compared with.
    - the algorithm behind [DataFrame.sort_values] is a [SortKind]: any
      algorithm that returns an ordered rearrangement.  The source passes no
      [kind], which selects numpy's quicksort, the instance [quicksort]. *)

From Stdlib Require Import List String Ascii ZArith NArith Lia Bool.
From Stdlib Require Import Permutation Sorted DecimalString SpecFloat.
Import ListNotations.

Local Open Scope string_scope.
Local Open Scope Z_scope.

(** ** Dates and periods *)

Module datetime.
Record date := mkdate { year : Z; month : Z; day : Z }.

Definition compare (a b : date) : comparison :=
  match year a ?= year b with
  | Eq => match month a ?= month b with
          | Eq => day a ?= day b
          | c => c
          end
  | c => c
  end.

End datetime.

Module pd.
Record Period := mkPeriod { year : Z; month : Z }.

Definition eqb (a b : Period) : bool :=
  (year a =? year b) && (month a =? month b).

Definition compare (a b : Period) : comparison :=
  match year a ?= year b with
  | Eq => month a ?= month b
  | c => c
  end.

Definition leb (a b : Period) : bool :=
  match compare a b with Gt => false | _ => true end.

Definition ltb (a b : Period) : bool :=
  match compare a b with Lt => true | _ => false end.
End pd.

(** [Series.dt.to_period('M')] on one timestamp. *)
Definition to_period (d : datetime.date) : pd.Period :=
  pd.mkPeriod (datetime.year d) (datetime.month d).

(** ** Text rendering *)

Definition digit (n : Z) : ascii := ascii_of_N (Z.to_N (48 + n)).

Definition pad2 (n : Z) : string :=
  String (digit (n / 10)) (String (digit (n mod 10)) EmptyString).

Definition pad4 (n : Z) : string :=
  String (digit (n / 1000)) (String (digit (n / 100 mod 10)) (pad2 (n mod 100))).

(** [strftime('%Y-%m-%d')]. *)
Definition strftime (d : datetime.date) : string :=
  pad4 (datetime.year d) ++ "-" ++ pad2 (datetime.month d) ++ "-" ++ pad2 (datetime.day d).

Definition str_of_Z (n : Z) : string := NilZero.string_of_int (Z.to_int n).

Definition month_name : list string :=
  [ ""; "January"; "February"; "March"; "April"; "May"; "June"; "July";
    "August"; "September"; "October"; "November"; "December" ].

(** [f"{calendar.month_name[month.month]} {month.year}"]. *)
Definition month_label (m : pd.Period) : string :=
  nth (Z.to_nat (pd.month m)) month_name "" ++ " " ++ str_of_Z (pd.year m).

(** ** Amounts *)

Class Number (F : Type) := {
  fzero : F;
  fadd : F -> F -> F;
  (** [DataFrame.round(2)] on one cell *)
  round2 : F -> F;
  (** [f"${x:,.2f}"] *)
  fmt_currency : F -> string;
  (** the literal written with two decimals, given as its count of hundredths *)
  of_cents : Z -> F
}.

(** [Series.sum]: accumulation from zero in row order. *)
Definition fsum {F} {num : Number F} (l : list F) : F :=
  fold_left fadd l fzero.

(** *** Integers counting hundredths *)

Fixpoint commas_rev (l : list ascii) (n : nat) : list ascii :=
  match l with
  | [] => []
  | c :: l' =>
      match n with
      | 3%nat => ","%char :: c :: commas_rev l' 1
      | _ => c :: commas_rev l' (S n)
      end
  end.

Definition thousands (s : string) : string :=
  string_of_list_ascii (rev (commas_rev (rev (list_ascii_of_string s)) 0)).

(** The text of [f"${x:,.2f}"] for a sign and a count of hundredths. *)
Definition fmt_signed (negative : bool) (q : Z) : string :=
  "$" ++ (if negative then "-" else "")
      ++ thousands (str_of_Z (q / 100)) ++ "." ++ pad2 (q mod 100).

Definition fmt_cents (x : Z) : string := fmt_signed (x <? 0) (Z.abs x).

#[export] Instance cents : Number Z := {
  fzero := 0;
  fadd := Z.add;
  round2 := fun x => x;
  fmt_currency := fmt_cents;
  of_cents := fun x => x
}.

(** *** IEEE 754 doubles *)

Module float64.
Definition prec : Z := 53.
Definition emax : Z := 1024.

Definition of_Z (z : Z) : spec_float := binary_normalize prec emax z 0 false.
Definition add : spec_float -> spec_float -> spec_float := SFadd prec emax.
Definition sub : spec_float -> spec_float -> spec_float := SFsub prec emax.
Definition mul : spec_float -> spec_float -> spec_float := SFmul prec emax.
Definition div : spec_float -> spec_float -> spec_float := SFdiv prec emax.

Definition sign (x : spec_float) : bool :=
  match x with
  | S754_zero s => s
  | S754_infinity s => s
  | S754_nan => false
  | S754_finite s _ _ => s
  end.


(** [rint] of a value that is not negative: below 2^52 adding and
    subtracting 2^52 rounds to the nearest integer, ties to even; from 2^52
    on every double is an integer. *)
Definition rint_abs (a : spec_float) : spec_float :=
  if SFltb a (of_Z (2 ^ 52)) then sub (add a (of_Z (2 ^ 52))) (of_Z (2 ^ 52)) else a.

Definition with_sign (s : bool) (x : spec_float) : spec_float :=
  match x with
  | S754_zero _ => S754_zero s
  | S754_infinity _ => S754_infinity s
  | S754_nan => S754_nan
  | S754_finite _ m e => S754_finite s m e
  end.

(** [numpy.round(x, 2)], which [DataFrame.round(2)] applies to a float
    column: [rint(x * 100) / 100].  The three operations are symmetric
    about zero, so the magnitude is computed and the sign of [x] put back. *)
Definition round2 (x : spec_float) : spec_float :=
  let y := SFabs (mul x (of_Z 100)) in
  with_sign (sign x) (div (rint_abs y) (of_Z 100)).

(** A literal with two decimals, as the nearest double. *)
Definition of_cents (z : Z) : spec_float := div (of_Z z) (of_Z 100).

(** The count of hundredths nearest to [m * 2^e], ties to even: the digits
    Python prints for the format [.2f]. *)
Definition hundredths (m : positive) (e : Z) : Z :=
  let n := Zpos m * 100 in
  if 0 <=? e then n * 2 ^ e
  else
    let d := 2 ^ (- e) in
    let q := n / d in
    match 2 * (n mod d) ?= d with
    | Lt => q
    | Gt => q + 1
    | Eq => if Z.even q then q else q + 1
    end.

(** [f"${x:,.2f}"] on a double. *)
Definition fmt (x : spec_float) : string :=
  match x with
  | S754_nan => "$nan"
  | S754_infinity s => "$" ++ (if s then "-" else "") ++ "inf"
  | S754_zero s => fmt_signed s 0
  | S754_finite s m e => fmt_signed s (hundredths m e)
  end.
End float64.

#[export] Instance binary64 : Number spec_float := {
  fzero := S754_zero false;
  fadd := float64.add;
  round2 := float64.round2;
  fmt_currency := float64.fmt;
  of_cents := float64.of_cents
}.

(** ** The stored frame *)

(** One row of [budget_data]: the seven columns every frame is built with.
    The amount is [None] when the numeric field of the form was left blank:
    [input.amount()] is then [None] and is stored as it is. *)
Record Transaction (F : Type) := mkTransaction {
  Date : datetime.date;
  Description : string;
  Amount : option F;
  Vendor : string;
  Budget_Category : string;
  Buyer : string;
  Notes : string
}.
Arguments mkTransaction {F}.
Arguments Date {F}.
Arguments Description {F}.
Arguments Amount {F}.
Arguments Vendor {F}.
Arguments Budget_Category {F}.
Arguments Buyer {F}.
Arguments Notes {F}.

(** The frame object.  [YearMonth] is the eighth column that two of the
    render functions assign on the object they were handed: [None] while the
    column does not exist, otherwise one cell per row, [None] for [NaT]. *)
Record DataFrame (F : Type) := mkDataFrame {
  rows : list (Transaction F);
  YearMonth : option (list (option pd.Period))
}.
Arguments mkDataFrame {F}.
Arguments rows {F}.
Arguments YearMonth {F}.

Definition len {F} (df : DataFrame F) : nat := List.length (rows df).

(** The spec's [snapshot()]: the transactions in stored order. *)
Definition snapshot {F} (df : DataFrame F) : list (Transaction F) := rows df.

Definition BUDGET_CATEGORIES : list string :=
  [ "Housing"; "Food"; "Clothing"; "Education"; "Transportation";
    "Communications"; "Health"; "Recreation"; "Other"; "Debt";
    "Fast Offering"; "Tithing"; "Income" ].

Definition get_sample_data {F} {num : Number F} : DataFrame F :=
  mkDataFrame
    [ mkTransaction (datetime.mkdate 2024 1 15) "Rent Payment" (Some (of_cents (-120000)))
        "Property Management" "Housing" "John" "Monthly rent for apartment";
      mkTransaction (datetime.mkdate 2024 1 20) "Grocery Store" (Some (of_cents (-8550)))
        "Safeway" "Food" "Jane" "Weekly grocery shopping";
      mkTransaction (datetime.mkdate 2024 1 25) "Gas Station" (Some (of_cents (-4500)))
        "Shell" "Transportation" "John" "Fill up tank";
      mkTransaction (datetime.mkdate 2024 2 5) "Internet Bill" (Some (of_cents (-7500)))
        "Comcast" "Communications" "John" "Monthly internet service";
      mkTransaction (datetime.mkdate 2024 2 10) "Restaurant" (Some (of_cents (-3200)))
        "Local Diner" "Food" "Jane" "Dinner with friends";
      mkTransaction (datetime.mkdate 2024 2 15) "Salary" (Some (of_cents 350000))
        "Company" "Income" "John" "Bi-weekly paycheck" ]
    None.

(** ** Library functions on lists *)

Fixpoint insert {A} (le : A -> A -> bool) (x : A) (l : list A) : list A :=
  match l with
  | [] => [x]
  | y :: l' => if le x y then x :: l else y :: insert le x l'
  end.

(** Insertion sort that keeps equal elements in their original order. *)
Definition isort {A} (le : A -> A -> bool) (l : list A) : list A :=
  fold_right (insert le) [] l.

(** Python's [sorted(xs, reverse=True)] (stable by definition of the
    language). *)
Definition sorted_reverse (l : list pd.Period) : list pd.Period :=
  isort (fun a b => pd.leb b a) l.

(** [Series.unique()]: distinct values in order of first appearance. *)
Fixpoint unique {A} (eqb : A -> A -> bool) (l : list A) : list A :=
  match l with
  | [] => []
  | x :: l' => x :: filter (fun y => negb (eqb x y)) (unique eqb l')
  end.

(** [data[mask]]: the rows whose mask cell is true. *)
Definition boolean_index {A} (l : list A) (mask : list bool) : list A :=
  map fst (filter snd (combine l mask)).

(** A sorting algorithm as pandas documents [sort_values] for any [kind]:
    the result is a rearrangement of the rows, ordered by the key.  Nothing
    is said about rows with equal keys. *)
Record SortKind := mkSortKind {
  sort_by : forall A : Type, (A -> A -> bool) -> list A -> list A;
  sort_by_perm : forall (A : Type) (le : A -> A -> bool) (l : list A),
    Permutation l (sort_by A le l);
  sort_by_sorted : forall (A : Type) (le : A -> A -> bool) (l : list A),
    (forall x y, le x y = true \/ le y x = true) ->
    (forall x y z, le x y = true -> le y z = true -> le x z = true) ->
    StronglySorted (fun x y => le x y = true) (sort_by A le l)
}.

(** [df.sort_values(by, ascending=...)] on a column of strings.  For a
    descending sort pandas ([nargsort]) reverses the rows, sorts them
    ascending and reverses the result. *)
Definition sort_values (K : SortKind) {A} (by_ : A -> string) (ascending : bool)
    (df : list A) : list A :=
  let le := fun a b => String.leb (by_ a) (by_ b) in
  if ascending then sort_by K A le df
  else rev (sort_by K A le (rev df)).

(** ** Frames handed to the page *)

Module Totals.
Record row (T : Type) := mk {
  Category : string;
  Total : T;
  Transaction_Count : nat
}.
Arguments mk {T}.
Arguments Category {T}.
Arguments Total {T}.
Arguments Transaction_Count {T}.
End Totals.

Module Display.
Record row := mk {
  Date : string;
  Description : string;
  Amount : string;
  Vendor : string;
  Category : string;
  Buyer : string;
  Notes : string
}.
End Display.

Module ui.
(** The two tags [month_selector] can return.  A choice of the select is
    keyed by [str(month)] in the source and parsed back by [pd.Period];
    here the key is the period itself. *)
Inductive Tag :=
| p (text : string)
| input_select (id label : string) (choices : list (pd.Period * string))
    (selected : option pd.Period).
End ui.

Module input.
(** What the session holds for an input that is created by a render
    function: nothing until the browser has sent a value. *)
Inductive reading (A : Type) :=
| not_sent
| sent (v : A).
Arguments not_sent {A}.
Arguments sent {A}.

(** The values of the form's widgets, which are part of the page from the
    start, and the reading of the month select, which [month_selector]
    creates.  The numeric field is [None] while it is blank. *)
Record t (F : Type) := mk {
  date : datetime.date;
  description : string;
  amount : option F;
  vendor : string;
  category : string;
  buyer : string;
  notes : string;
  selected_month : reading (option pd.Period)
}.
Arguments mk {F}.
Arguments date {F}.
Arguments description {F}.
Arguments amount {F}.
Arguments vendor {F}.
Arguments category {F}.
Arguments buyer {F}.
Arguments notes {F}.
Arguments selected_month {F}.
End input.

(** ** State and exceptions *)

(** [SilentException] is what [req] and the reading of an input that was
    not sent raise: the page shows nothing and the handler is dropped; for
    an append this is the spec's ValidationError.  [TypeError] is what
    formatting [None] as a number raises. *)
Inductive Exception := SilentException | TypeError.

Definition M (S A : Type) : Type := S -> (Exception + A) * S.

Definition ret {S A} (a : A) : M S A := fun s => (inr a, s).

Definition bind {S A B} (m : M S A) (k : A -> M S B) : M S B :=
  fun s =>
    match m s with
    | (inl e, s') => (inl e, s')
    | (inr a, s') => k a s'
    end.

Definition raise {S A} (e : Exception) : M S A := fun s => (inl e, s).

Declare Scope handler_scope.
Delimit Scope handler_scope with handler.
Notation "x <- m ;; k" := (bind m (fun x => k))
  (at level 100, m at next level, right associativity) : handler_scope.
Notation "m ;; k" := (bind m (fun _ => k))
  (at level 100, right associativity) : handler_scope.

(** Python truthiness of a string. *)
Definition truthy (s : string) : bool := negb (s =? "")%string.

(** [shiny.req]: every argument must be truthy. *)
Definition req {S} (args : list string) : M S unit :=
  if forallb truthy args then ret tt else raise SilentException.

(** [input.x()] for an input created by a render function. *)
Definition input_call {S A} (r : input.reading A) : M S A :=
  match r with
  | input.not_sent => raise SilentException
  | input.sent v => ret v
  end.

(** ** The handlers of app.py *)

Section Handlers.
Context {F : Type} {num : Number F}.
Variable K : SortKind.

Local Open Scope handler_scope.

(** [budget_data()]: the frame the reactive cell refers to. *)
Definition budget_data_call : M (DataFrame F) (DataFrame F) :=
  fun df => (inr df, df).

(** [budget_data.set(df)]. *)
Definition budget_data_set (df : DataFrame F) : M (DataFrame F) unit :=
  fun _ => (inr tt, df).

(** [data['YearMonth'] = col] on the frame obtained from [budget_data()]:
    the assignment lands in the object the cell refers to. *)
Definition setitem_YearMonth (col : list (option pd.Period))
    : M (DataFrame F) unit :=
  fun df => (inr tt, mkDataFrame (rows df) (Some col)).

(** The spec's [listMonths]/[availableMonths]: the keys the select offers. *)
Definition listMonths (t : ui.Tag) : list pd.Period :=
  match t with
  | ui.p _ => []
  | ui.input_select _ _ choices _ => map fst choices
  end.

Definition month_selector : M (DataFrame F) ui.Tag :=
  data <- budget_data_call ;;
  if (len data =? 0)%nat then ret (ui.p "No data available")
  else
    (* the column that is assigned is the one that is read back *)
    let YearMonth_col := map to_period (map Date (rows data)) in
    setitem_YearMonth (map Some YearMonth_col) ;;
    let unique_months := sorted_reverse (unique pd.eqb YearMonth_col) in
    if (List.length unique_months =? 0)%nat then ret (ui.p "No data available")
    else
      let month_choices := map (fun month => (month, month_label month)) unique_months in
      ret (ui.input_select "selected_month" "Select Month" month_choices
             (hd_error unique_months)).

(** [Series.dropna] on the amounts: the cells that hold a number. *)
Definition dropna (l : list (option F)) : list F :=
  flat_map (fun a => match a with Some x => [x] | None => [] end) l.

(** Whether the column [Amount] holds numbers only (dtype float64); one
    [None] makes it a column of objects. *)
Definition is_numeric (l : list (Transaction F)) : bool :=
  forallb (fun t => match Amount t with Some _ => true | None => false end) l.

(** [monthly_data.groupby('Budget_Category').agg({'Amount': ['sum', 'count']})]
    followed by [reset_index]: one row per key, keys in ascending order,
    each group in row order.  Both [sum] and [count] skip the cells without a
    number. *)
Definition groupby_agg (monthly_data : list (Transaction F)) : list (Totals.row F) :=
  let keys := isort String.leb (unique String.eqb (map Budget_Category monthly_data)) in
  map (fun k =>
         let group := filter (fun t => (Budget_Category t =? k)%string) monthly_data in
         Totals.mk k (fsum (dropna (map Amount group)))
           (List.length (dropna (map Amount group))))
      keys.

(** [.round(2)] on the aggregated frame: it rounds the columns of numeric
    dtype, so the sums of a float column; the counts are integers, and the
    sums of a column of objects are left as they are. *)
Definition round_2 (numeric : bool) (df : list (Totals.row F)) : list (Totals.row F) :=
  map (fun r => Totals.mk (Totals.Category r)
                  (if numeric then round2 (Totals.Total r) else Totals.Total r)
                  (Totals.Transaction_Count r)) df.

(** Lines 111 to 117: the numeric frame before it is rendered. *)
Definition category_totals (numeric : bool) (monthly_data : list (Transaction F))
    : list (Totals.row F) :=
  round_2 numeric (groupby_agg monthly_data).

(** [category_totals['Total'].apply(lambda x: f"${x:,.2f}")]. *)
Definition apply_currency (df : list (Totals.row F)) : list (Totals.row string) :=
  map (fun r => Totals.mk (Totals.Category r) (fmt_currency (Totals.Total r))
                  (Totals.Transaction_Count r)) df.

Definition monthly_totals (inp : input.t F) : M (DataFrame F) (list (Totals.row string)) :=
  data <- budget_data_call ;;
  (* [len(data) == 0 or input.selected_month() is None]: the input is read
     only when the store has rows *)
  if (len data =? 0)%nat then ret []
  else
    selected_month <- input_call (input.selected_month inp) ;;
    match selected_month with
    | None => ret []
    | Some selected_period =>
        let YearMonth_col := map to_period (map Date (rows data)) in
        setitem_YearMonth (map Some YearMonth_col) ;;
        let monthly_data :=
          boolean_index (rows data)
            (map (fun ym => pd.eqb ym selected_period) YearMonth_col) in
        if (List.length monthly_data =? 0)%nat then ret []
        else
          ret (sort_values K Totals.Category true
                 (apply_currency
                    (category_totals (is_numeric (rows data)) monthly_data)))
    end.

(** [display_data['Amount'].apply(lambda x: f"${x:,.2f}")]: the format
    raises on the first cell that is [None]. *)
Fixpoint apply_format (amounts : list (option F)) : Exception + list string :=
  match amounts with
  | [] => inr []
  | None :: _ => inl TypeError
  | Some x :: rest =>
      match apply_format rest with
      | inl e => inl e
      | inr texts => inr (fmt_currency x :: texts)
      end
  end.

(** One row of the copy after lines 135 to 141. *)
Definition display_row (t : Transaction F) (amount : string) : Display.row :=
  Display.mk (strftime (Date t)) (Description t) amount
    (Vendor t) (Budget_Category t) (Buyer t) (Notes t).

Definition all_transactions : M (DataFrame F) (list Display.row) :=
  data <- budget_data_call ;;
  if (len data =? 0)%nat then ret []
  else
    (* [data.copy()]: from here on a value of its own *)
    match apply_format (map Amount (rows data)) with
    | inl e => raise e
    | inr amounts =>
        let display_data :=
          map (fun ta => display_row (fst ta) (snd ta)) (combine (rows data) amounts) in
        ret (sort_values K Display.Date false display_data)
    end.

(** [pd.concat([a, b], ignore_index=True)]: rows of [a] then rows of [b];
    a column missing on one side is filled with NaN/NaT there. *)
Definition pd_concat (a b : DataFrame F) : DataFrame F :=
  let cells df :=
    match YearMonth df with
    | Some col => col
    | None => repeat None (len df)
    end in
  mkDataFrame (rows a ++ rows b)
    (match YearMonth a, YearMonth b with
     | None, None => None
     | _, _ => Some (cells a ++ cells b)%list
     end).

Definition add_new_transaction (inp : input.t F) : M (DataFrame F) unit :=
  req [input.description inp; input.vendor inp; input.buyer inp] ;;
  let new_transaction :=
    mkDataFrame
      [ mkTransaction (input.date inp) (input.description inp) (input.amount inp)
          (input.vendor inp) (input.category inp) (input.buyer inp)
          (if truthy (input.notes inp) then input.notes inp else "") ]
      None in
  current_data <- budget_data_call ;;
  let updated_data := pd_concat current_data new_transaction in
  budget_data_set updated_data.

Definition clear_all_data : M (DataFrame F) unit :=
  let empty_df := mkDataFrame [] None in
  budget_data_set empty_df.

End Handlers.

(** ** Insertion sort is a sorting algorithm *)

Section InsertionSort.
Context {A : Type} (le : A -> A -> bool).

Lemma insert_perm (x : A) (l : list A) : Permutation (x :: l) (insert le x l).
Proof.
  induction l as [|y l IH]; simpl.
  - apply Permutation_refl.
  - destruct (le x y).
    + apply Permutation_refl.
    + eapply perm_trans; [apply perm_swap|].
      apply perm_skip, IH.
Qed.

Lemma isort_perm (l : list A) : Permutation l (isort le l).
Proof.
  induction l as [|x l IH]; simpl.
  - apply perm_nil.
  - eapply perm_trans; [apply perm_skip, IH|].
    apply insert_perm.
Qed.

Hypothesis le_total : forall x y, le x y = true \/ le y x = true.
Hypothesis le_trans : forall x y z, le x y = true -> le y z = true -> le x z = true.

Lemma insert_sorted (x : A) (l : list A) :
  StronglySorted (fun a b => le a b = true) l ->
  StronglySorted (fun a b => le a b = true) (insert le x l).
Proof.
  induction 1 as [|y l Hs IH Hy]; simpl.
  - constructor; constructor.
  - destruct (le x y) eqn:Hxy.
    + constructor.
      * constructor; assumption.
      * constructor; [assumption|].
        rewrite Forall_forall in *. intros z Hz.
        eapply le_trans; [exact Hxy|]. apply Hy, Hz.
    + constructor; [exact IH|].
      rewrite Forall_forall in *. intros z Hz.
      apply (Permutation_in _ (Permutation_sym (insert_perm x l))) in Hz.
      destruct Hz as [<-|Hz].
      * destruct (le_total y x) as [H|H]; [exact H|congruence].
      * apply Hy, Hz.
Qed.

Lemma isort_sorted (l : list A) :
  StronglySorted (fun a b => le a b = true) (isort le l).
Proof.
  induction l as [|x l IH]; simpl.
  - constructor.
  - apply insert_sorted, IH.
Qed.
End InsertionSort.

(** The algorithm of [kind='stable']. *)

Definition stable_kind : SortKind :=
  mkSortKind (fun A le l => isort le l)
    (fun A le l => isort_perm le l)
    (fun A le l Htot Htr => isort_sorted le Htot Htr l).

(** ** Orders on periods and strings *)

Lemma pd_eqb_eq (a b : pd.Period) : pd.eqb a b = true <-> a = b.
Proof.
  destruct a as [ya ma], b as [yb mb]; unfold pd.eqb; simpl.
  rewrite andb_true_iff, !Z.eqb_eq. split.
  - intros [-> ->]; reflexivity.
  - intros H; injection H; auto.
Qed.

Lemma pd_compare_eq (a b : pd.Period) : pd.compare a b = Eq -> a = b.
Proof.
  destruct a as [ya ma], b as [yb mb]; unfold pd.compare; simpl.
  destruct (ya ?= yb) eqn:Hy; try discriminate.
  intros Hm. apply Z.compare_eq in Hy, Hm. congruence.
Qed.

Lemma pd_leb_spec (a b : pd.Period) :
  pd.leb a b = true <->
  pd.year a < pd.year b \/ (pd.year a = pd.year b /\ pd.month a <= pd.month b).
Proof.
  unfold pd.leb, pd.compare.
  destruct (Z.compare_spec (pd.year a) (pd.year b));
    destruct (Z.compare_spec (pd.month a) (pd.month b));
    split; intros; try reflexivity; try discriminate; lia.
Qed.

Lemma pd_leb_total (a b : pd.Period) : pd.leb a b = true \/ pd.leb b a = true.
Proof. rewrite !pd_leb_spec. lia. Qed.

Lemma pd_leb_trans (a b c : pd.Period) :
  pd.leb a b = true -> pd.leb b c = true -> pd.leb a c = true.
Proof. rewrite !pd_leb_spec. lia. Qed.

Lemma pd_leb_ltb (a b : pd.Period) :
  pd.leb a b = true -> a <> b -> pd.ltb a b = true.
Proof.
  unfold pd.leb, pd.ltb. destruct (pd.compare a b) eqn:Hc; try congruence.
  intros _ Hne. elim Hne. apply pd_compare_eq, Hc.
Qed.

Lemma ascii_compare_lt (a b : ascii) :
  Ascii.compare a b = Lt <-> (N_of_ascii a < N_of_ascii b)%N.
Proof. unfold Ascii.compare. apply N.compare_lt_iff. Qed.

Lemma string_compare_lt_trans (a b c : string) :
  String.compare a b = Lt -> String.compare b c = Lt -> String.compare a c = Lt.
Proof.
  revert b c. induction a as [|x a IH]; intros [|y b] [|z c]; simpl;
    try discriminate; try reflexivity.
  destruct (Ascii.compare x y) eqn:Hxy; try discriminate;
    destruct (Ascii.compare y z) eqn:Hyz; try discriminate; intros Hab Hbc.
  - apply Ascii.compare_eq_iff in Hxy, Hyz. subst.
    replace (Ascii.compare z z) with Eq
      by (symmetry; unfold Ascii.compare; apply N.compare_refl).
    eapply IH; eassumption.
  - apply Ascii.compare_eq_iff in Hxy. subst. rewrite Hyz. reflexivity.
  - apply Ascii.compare_eq_iff in Hyz. subst. rewrite Hxy. reflexivity.
  - apply (proj1 (ascii_compare_lt _ _)) in Hxy.
    apply (proj1 (ascii_compare_lt _ _)) in Hyz.
    replace (Ascii.compare x z) with Lt; [reflexivity|].
    symmetry. apply ascii_compare_lt. lia.
Qed.

Lemma string_leb_trans (a b c : string) :
  String.leb a b = true -> String.leb b c = true -> String.leb a c = true.
Proof.
  unfold String.leb.
  destruct (String.compare a b) eqn:Hab; try discriminate;
    destruct (String.compare b c) eqn:Hbc; try discriminate; intros _ _.
  - apply String.compare_eq_iff in Hab. subst. rewrite Hbc. reflexivity.
  - apply String.compare_eq_iff in Hab. subst. rewrite Hbc. reflexivity.
  - apply String.compare_eq_iff in Hbc. subst. rewrite Hab. reflexivity.
  - rewrite (string_compare_lt_trans _ _ _ Hab Hbc). reflexivity.
Qed.

Lemma string_leb_ltb (a b : string) :
  String.leb a b = true -> a <> b -> String.ltb a b = true.
Proof.
  unfold String.leb, String.ltb.
  destruct (String.compare a b) eqn:Hc; try congruence.
  intros _ Hne. elim Hne. apply String.compare_eq_iff, Hc.
Qed.

(** ** Lists: distinct values, masks, strict order *)

Section Unique.
Context {A : Type} (eqb : A -> A -> bool).
Hypothesis eqb_eq : forall x y, eqb x y = true <-> x = y.

Lemma unique_In (x : A) (l : list A) : In x (unique eqb l) <-> In x l.
Proof.
  induction l as [|y l IH]; simpl; [tauto|].
  rewrite filter_In, IH, negb_true_iff.
  destruct (eqb y x) eqn:E.
  - apply eqb_eq in E. subst. split; auto.
  - assert (y <> x) by (intros ->; rewrite (proj2 (eqb_eq x x) eq_refl) in E; discriminate).
    split; [intros [?|[? _]]; auto | intros [?|?]; [contradiction|auto]].
Qed.

Lemma unique_NoDup (l : list A) : NoDup (unique eqb l).
Proof.
  induction l as [|y l IH]; simpl; constructor.
  - rewrite filter_In, negb_true_iff.
    intros [_ E]. rewrite (proj2 (eqb_eq y y) eq_refl) in E. discriminate.
  - apply NoDup_filter, IH.
Qed.
End Unique.

Lemma boolean_index_map {A} (f : A -> bool) (l : list A) :
  boolean_index l (map f l) = filter f l.
Proof.
  unfold boolean_index. induction l as [|x l IH]; simpl; [reflexivity|].
  destruct (f x); simpl; rewrite IH; reflexivity.
Qed.

Lemma StronglySorted_strict {A} (R R' : A -> A -> Prop) (l : list A) :
  (forall x y, R x y -> x <> y -> R' x y) ->
  NoDup l -> StronglySorted R l -> StronglySorted R' l.
Proof.
  intros HR Hnd Hs. induction Hs as [|x l Hs IH Hx]; constructor.
  - apply IH. inversion Hnd; assumption.
  - inversion Hnd as [|? ? Hnin _]; subst.
    rewrite Forall_forall in *. intros y Hy.
    apply HR; [apply Hx, Hy|]. intros ->. contradiction.
Qed.

(** ** Appending and clearing *)

Section StoreEffects.
Context {F : Type} {num : Number F}.

Lemma truthy_spec (s : string) : truthy s = true <-> s <> "".
Proof.
  unfold truthy. rewrite negb_true_iff. apply String.eqb_neq.
Qed.

Lemma req3_false (a b c : string) :
  forallb truthy [a; b; c] = false <-> a = "" \/ b = "" \/ c = "".
Proof.
  simpl. unfold truthy.
  destruct (String.eqb_spec a ""), (String.eqb_spec b ""), (String.eqb_spec c "");
    simpl; split; intros H; try discriminate; try reflexivity; auto;
    destruct H as [H|[H|H]]; contradiction.
Qed.

Lemma add_new_transaction_accepts (inp : input.t F) (df : DataFrame F) :
  input.description inp <> "" -> input.vendor inp <> "" -> input.buyer inp <> "" ->
  add_new_transaction inp df =
    (inr tt,
     pd_concat df
       (mkDataFrame
          [ mkTransaction (input.date inp) (input.description inp) (input.amount inp)
              (input.vendor inp) (input.category inp) (input.buyer inp)
              (input.notes inp) ]
          None)).
Proof.
  intros Hd Hv Hb.
  unfold add_new_transaction, bind, req.
  destruct (forallb truthy _) eqn:Hreq.
  - simpl. unfold budget_data_set.
    replace (if truthy (input.notes inp) then input.notes inp else "")
      with (input.notes inp); [reflexivity|].
    unfold truthy. destruct (String.eqb_spec (input.notes inp) ""); simpl; auto.
  - apply req3_false in Hreq. tauto.
Qed.

Lemma add_new_transaction_cancels (inp : input.t F) (df : DataFrame F) :
  input.description inp = "" \/ input.vendor inp = "" \/ input.buyer inp = "" ->
  add_new_transaction inp df = (inl SilentException, df).
Proof.
  intros H. apply req3_false in H.
  unfold add_new_transaction, bind, req. rewrite H. reflexivity.
Qed.

(** C2. With non-empty description, vendor and buyer the effect completes,
    the snapshot is one longer, every transaction that was stored keeps its
    position, and the last transaction carries the form's values field by
    field. *)
Theorem add_new_transaction_appends_C2 (inp : input.t F) (df : DataFrame F) :
  input.description inp <> "" -> input.vendor inp <> "" -> input.buyer inp <> "" ->
  exists (df' : DataFrame F) (t : Transaction F),
    add_new_transaction inp df = (inr tt, df') /\
    List.length (snapshot df') = S (List.length (snapshot df)) /\
    (forall i old, nth_error (snapshot df) i = Some old ->
                   nth_error (snapshot df') i = Some old) /\
    snapshot df' = (snapshot df ++ [t])%list /\
    nth_error (snapshot df') (List.length (snapshot df)) = Some t /\
    Date t = input.date inp /\
    Description t = input.description inp /\
    Amount t = input.amount inp /\
    Vendor t = input.vendor inp /\
    Budget_Category t = input.category inp /\
    Buyer t = input.buyer inp /\
    Notes t = input.notes inp.
Proof.
  intros Hd Hv Hb.
  eexists. eexists. split; [apply add_new_transaction_accepts; assumption|].
  unfold snapshot, pd_concat; simpl.
  repeat split.
  - rewrite length_app. simpl. lia.
  - intros i old Hi. rewrite nth_error_app1; [exact Hi|].
    apply nth_error_Some. congruence.
  - rewrite nth_error_app2, Nat.sub_diag; [reflexivity|lia].
Qed.

(** C3. The effect stops with the exception of [req] exactly when the
    description, the vendor or the buyer is empty, and then the stored
    frame is the one it started from. *)
Theorem add_new_transaction_rejects_C3 (inp : input.t F) (df : DataFrame F) :
  (fst (add_new_transaction inp df) = inl SilentException <->
     input.description inp = "" \/ input.vendor inp = "" \/ input.buyer inp = "") /\
  (input.description inp = "" \/ input.vendor inp = "" \/ input.buyer inp = "" ->
     add_new_transaction inp df = (inl SilentException, df) /\
     snapshot (snd (add_new_transaction inp df)) = snapshot df /\
     List.length (snapshot (snd (add_new_transaction inp df))) = List.length (snapshot df)).
Proof.
  split.
  - split.
    + intros Hraise.
      destruct (String.eqb_spec (input.description inp) ""); auto.
      destruct (String.eqb_spec (input.vendor inp) ""); auto.
      destruct (String.eqb_spec (input.buyer inp) ""); auto.
      rewrite add_new_transaction_accepts in Hraise by assumption.
      discriminate.
    + intros H. rewrite add_new_transaction_cancels by assumption. reflexivity.
  - intros H. rewrite add_new_transaction_cancels by assumption. auto.
Qed.

(** C9 as the code has it.  The category plays no part in the decision:
    with non-empty description, vendor and buyer the effect completes for
    any category text, in [BUDGET_CATEGORIES] or not, and the text is
    stored as it came. *)
Theorem add_new_transaction_any_category_C9 (inp : input.t F) (df : DataFrame F) :
  input.description inp <> "" -> input.vendor inp <> "" -> input.buyer inp <> "" ->
  fst (add_new_transaction inp df) = inr tt /\
  exists t, snapshot (snd (add_new_transaction inp df)) = (snapshot df ++ [t])%list /\
            Budget_Category t = input.category inp.
Proof.
  intros Hd Hv Hb. rewrite add_new_transaction_accepts by assumption.
  split; [reflexivity|]. eexists. split; reflexivity.
Qed.

(** C4. Clearing completes from any frame; afterwards the snapshot is
    empty, the transaction table has no row and the month selector offers
    no month. *)
Theorem clear_all_data_empties_C4 (K : SortKind) (df : DataFrame F) :
  exists df' : DataFrame F,
    clear_all_data df = (inr tt, df') /\
    snapshot df' = [] /\
    fst (all_transactions K df') = inr [] /\
    (exists tag, fst (month_selector df') = inr tag /\ listMonths tag = []) /\
    List.length (snapshot df') = 0%nat.
Proof.
  exists (mkDataFrame [] None).
  split; [reflexivity|]. split; [reflexivity|]. split; [reflexivity|].
  split; [|reflexivity].
  eexists. split; reflexivity.
Qed.

End StoreEffects.

(** ** Words of the claims *)

(** The date [d] falls in the month [m]. *)
Definition in_month (m : pd.Period) (d : datetime.date) : Prop :=
  datetime.year d = pd.year m /\ datetime.month d = pd.month m.

Definition in_monthb (m : pd.Period) (d : datetime.date) : bool :=
  (datetime.year d =? pd.year m) && (datetime.month d =? pd.month m).

(** The month [a] comes after the month [b]. *)
Definition later (a b : pd.Period) : Prop :=
  pd.year b < pd.year a \/ (pd.year b = pd.year a /\ pd.month b < pd.month a).

(** The cell holds a number. *)
Definition present {F} (a : option F) : bool :=
  match a with Some _ => true | None => false end.

Lemma in_monthb_spec (m : pd.Period) (d : datetime.date) :
  in_monthb m d = true <-> in_month m d.
Proof.
  unfold in_monthb, in_month. rewrite andb_true_iff, !Z.eqb_eq. tauto.
Qed.

Lemma to_period_in_month (m : pd.Period) (d : datetime.date) :
  to_period d = m <-> in_month m d.
Proof.
  unfold to_period, in_month. destruct m as [y mo]. cbn. split.
  - intros H. injection H. auto.
  - intros [-> ->]. reflexivity.
Qed.

Lemma pd_eqb_in_monthb (m : pd.Period) (d : datetime.date) :
  pd.eqb (to_period d) m = in_monthb m d.
Proof. reflexivity. Qed.

Lemma pd_ltb_later (a b : pd.Period) : pd.ltb b a = true <-> later a b.
Proof.
  unfold pd.ltb, pd.compare, later.
  destruct (Z.compare_spec (pd.year b) (pd.year a));
    destruct (Z.compare_spec (pd.month b) (pd.month a));
    split; intros; try reflexivity; try discriminate; lia.
Qed.

(** ** The month selector *)

Section Months.
Context {F : Type} {num : Number F}.

(** The months of the stored dates, row by row. *)
Definition periods (df : DataFrame F) : list pd.Period :=
  map to_period (map Date (rows df)).

(** The months the selector is built from. *)
Definition months_of (df : DataFrame F) : list pd.Period :=
  sorted_reverse (unique pd.eqb (periods df)).

Lemma month_selector_run (df : DataFrame F) :
  fst (month_selector df) =
    inr (if (len df =? 0)%nat then ui.p "No data available"
         else if (List.length (months_of df) =? 0)%nat then ui.p "No data available"
         else ui.input_select "selected_month" "Select Month"
                (map (fun month => (month, month_label month)) (months_of df))
                (hd_error (months_of df))).
Proof.
  cbv [month_selector bind budget_data_call setitem_YearMonth ret].
  fold (periods df). fold (months_of df).
  destruct (len df =? 0)%nat; [reflexivity|].
  destruct (List.length (months_of df) =? 0)%nat; reflexivity.
Qed.

Lemma month_selector_months (df : DataFrame F) :
  exists tag, fst (month_selector df) = inr tag /\ listMonths tag = months_of df.
Proof.
  rewrite month_selector_run. eexists. split; [reflexivity|].
  destruct (len df =? 0)%nat eqn:Hlen.
  - apply Nat.eqb_eq, length_zero_iff_nil in Hlen.
    unfold months_of, periods. rewrite Hlen. reflexivity.
  - destruct (List.length (months_of df) =? 0)%nat eqn:Hmonths.
    + apply Nat.eqb_eq, length_zero_iff_nil in Hmonths. rewrite Hmonths. reflexivity.
    + cbn [listMonths]. rewrite map_map. apply map_id.
Qed.

Lemma month_selector_rows (df : DataFrame F) :
  rows (snd (month_selector df)) = rows df.
Proof.
  cbv [month_selector bind budget_data_call setitem_YearMonth ret].
  destruct (len df =? 0)%nat; [reflexivity|].
  match goal with
  | |- context [if ?c then _ else _] => destruct c
  end; reflexivity.
Qed.

Lemma months_of_In (df : DataFrame F) (m : pd.Period) :
  In m (months_of df) <-> exists t, In t (rows df) /\ in_month m (Date t).
Proof.
  unfold months_of, sorted_reverse.
  pose proof (isort_perm (fun a b => pd.leb b a) (unique pd.eqb (periods df))) as Hp.
  split.
  - intros Hin. apply (Permutation_in _ (Permutation_sym Hp)) in Hin.
    apply (proj1 (unique_In _ pd_eqb_eq m (periods df))) in Hin.
    unfold periods in Hin. rewrite map_map in Hin.
    apply in_map_iff in Hin. destruct Hin as [t [Ht Hin]]. exists t.
    split; [exact Hin|apply to_period_in_month, Ht].
  - intros [t [Hin Ht]]. apply (Permutation_in _ Hp).
    apply (proj2 (unique_In _ pd_eqb_eq m (periods df))).
    unfold periods. rewrite map_map. apply in_map_iff. exists t.
    split; [apply to_period_in_month, Ht|exact Hin].
Qed.

Lemma months_of_NoDup (df : DataFrame F) : NoDup (months_of df).
Proof.
  unfold months_of, sorted_reverse.
  eapply Permutation_NoDup; [apply isort_perm|]. apply unique_NoDup, pd_eqb_eq.
Qed.

Lemma months_of_sorted (df : DataFrame F) :
  StronglySorted (fun a b => pd.leb b a = true) (months_of df).
Proof.
  unfold months_of, sorted_reverse.
  apply (isort_sorted (fun a b => pd.leb b a)).
  - intros x y. apply pd_leb_total.
  - intros x y z Hxy Hyz. eapply pd_leb_trans; eassumption.
Qed.

(** C5. The selector lists exactly the months in which a stored
    transaction falls, each once, from the most recent to the oldest, and
    none when the store is empty. *)
Theorem month_selector_available_months_C5 (df : DataFrame F) :
  exists tag, fst (month_selector df) = inr tag /\
    (forall m, In m (listMonths tag) <->
               exists t, In t (snapshot df) /\ in_month m (Date t)) /\
    NoDup (listMonths tag) /\
    StronglySorted later (listMonths tag) /\
    (snapshot df = [] -> listMonths tag = []).
Proof.
  destruct (month_selector_months df) as [tag [Hrun Hlist]].
  exists tag. split; [exact Hrun|]. rewrite Hlist. unfold snapshot.
  split; [apply months_of_In|]. split; [apply months_of_NoDup|]. split.
  - apply StronglySorted_strict with (R := fun a b => pd.leb b a = true).
    + intros x y Hxy Hne. apply pd_ltb_later, pd_leb_ltb; [exact Hxy|congruence].
    + apply months_of_NoDup.
    + apply months_of_sorted.
  - intros Hempty. unfold months_of, periods. rewrite Hempty. reflexivity.
Qed.

End Months.

(** ** Ordered lists *)

Lemma StronglySorted_map {A B} (f : A -> B) (R : B -> B -> Prop) (l : list A) :
  StronglySorted (fun a b => R (f a) (f b)) l -> StronglySorted R (map f l).
Proof.
  induction 1 as [|x l Hs IH Hx]; cbn; constructor; [exact IH|].
  rewrite Forall_forall in *. intros y Hy.
  apply in_map_iff in Hy. destruct Hy as [z [<- Hz]]. apply Hx, Hz.
Qed.

Lemma StronglySorted_map_inv {A B} (f : A -> B) (R : B -> B -> Prop) (l : list A) :
  StronglySorted R (map f l) -> StronglySorted (fun a b => R (f a) (f b)) l.
Proof.
  induction l as [|x l IH]; cbn; intros Hs; [constructor|].
  inversion Hs as [|? ? Hs' Hx]; subst. constructor; [apply IH, Hs'|].
  rewrite Forall_forall in *. intros y Hy. apply Hx, in_map, Hy.
Qed.


Lemma StronglySorted_app {A} (R : A -> A -> Prop) (l1 l2 : list A) :
  StronglySorted R l1 -> StronglySorted R l2 ->
  (forall x y, In x l1 -> In y l2 -> R x y) ->
  StronglySorted R (l1 ++ l2).
Proof.
  intros Hs1 Hs2 Hcross. induction Hs1 as [|x l1 Hs1 IH Hx]; [exact Hs2|].
  cbn. constructor.
  - apply IH. intros a b Ha Hb. apply Hcross; [right; exact Ha|exact Hb].
  - rewrite Forall_forall in *. intros y Hy. apply in_app_or in Hy.
    destruct Hy as [Hy|Hy]; [apply Hx, Hy|apply Hcross; [left; reflexivity|exact Hy]].
Qed.

Lemma StronglySorted_rev {A} (R : A -> A -> Prop) (l : list A) :
  StronglySorted R l -> StronglySorted (fun a b => R b a) (rev l).
Proof.
  induction 1 as [|x l Hs IH Hx]; [constructor|].
  cbn [rev]. apply StronglySorted_app.
  - exact IH.
  - constructor; constructor.
  - rewrite Forall_forall in Hx. intros a b Ha [<-|[]].
    apply Hx, in_rev, Ha.
Qed.

Lemma string_ltb_asym (a b : string) :
  String.ltb a b = true -> String.ltb b a = true -> False.
Proof.
  unfold String.ltb. rewrite (String.compare_antisym a b).
  destruct (String.compare b a); cbn; discriminate.
Qed.

(** Two strictly ordered lists with the same elements are the same list. *)
Lemma strictly_sorted_perm_eq {A} (R : A -> A -> Prop) (l1 l2 : list A) :
  (forall x y, R x y -> R y x -> False) ->
  StronglySorted R l1 -> StronglySorted R l2 -> Permutation l1 l2 -> l1 = l2.
Proof.
  intros Hasym Hs1. revert l2.
  induction Hs1 as [|x l1 Hs1 IH Hx]; intros l2 Hs2 Hperm.
  - apply Permutation_nil in Hperm. congruence.
  - destruct Hs2 as [|y l2 Hs2 Hy].
    + apply Permutation_sym, Permutation_nil in Hperm. discriminate Hperm.
    + rewrite Forall_forall in Hx, Hy.
      assert (Hxy : x = y).
      { assert (Hx2 : In x (y :: l2))
          by (eapply Permutation_in; [exact Hperm|left; reflexivity]).
        assert (Hy1 : In y (x :: l1))
          by (eapply Permutation_in; [apply Permutation_sym, Hperm|left; reflexivity]).
        destruct Hx2 as [Heq|Hx2]; [congruence|].
        destruct Hy1 as [Heq|Hy1]; [congruence|].
        exfalso. apply (Hasym x y); [apply Hx, Hy1|apply Hy, Hx2]. }
      subst y. f_equal. apply IH; [exact Hs2|].
      eapply Permutation_cons_inv, Hperm.
Qed.

Section SortValues.
Variable K : SortKind.
Context {A : Type} (by_ : A -> string).

Lemma sort_by_nil (B : Type) (le : B -> B -> bool) : sort_by K B le [] = [].
Proof. apply Permutation_nil, sort_by_perm. Qed.

Lemma sort_values_nil (ascending : bool) : sort_values K by_ ascending [] = [].
Proof.
  unfold sort_values. destruct ascending; cbn [rev]; rewrite sort_by_nil; reflexivity.
Qed.

Lemma sort_values_perm (ascending : bool) (df : list A) :
  Permutation df (sort_values K by_ ascending df).
Proof.
  unfold sort_values. destruct ascending.
  - apply sort_by_perm.
  - eapply perm_trans; [apply Permutation_rev|].
    eapply perm_trans; [apply sort_by_perm|]. apply Permutation_rev.
Qed.

Lemma sort_values_ascending (df : list A) :
  StronglySorted (fun a b => String.leb (by_ a) (by_ b) = true)
    (sort_values K by_ true df).
Proof.
  unfold sort_values. apply sort_by_sorted.
  - intros x y. apply String.leb_total.
  - intros x y z. apply string_leb_trans.
Qed.

Lemma sort_values_descending (df : list A) :
  StronglySorted (fun a b => String.leb (by_ b) (by_ a) = true)
    (sort_values K by_ false df).
Proof.
  unfold sort_values.
  apply StronglySorted_rev with (R := fun a b => String.leb (by_ a) (by_ b) = true).
  apply sort_by_sorted.
  - intros x y. apply String.leb_total.
  - intros x y z. apply string_leb_trans.
Qed.

End SortValues.

(** ** Monthly totals *)


Section MonthlyTotals.
Context {F : Type} {num : Number F}.
Variable K : SortKind.

(** The transactions whose date falls in the month [m]. *)
Definition matching (m : pd.Period) (df : DataFrame F) : list (Transaction F) :=
  filter (fun t => in_monthb m (Date t)) (rows df).

(** Those of them filed under the category [c]. *)
Definition group_of (m : pd.Period) (c : string) (df : DataFrame F)
    : list (Transaction F) :=
  filter (fun t => (Budget_Category t =? c)%string) (matching m df).

(** The transactions of a list whose amount is a number. *)
Definition with_amount (l : list (Transaction F)) : list (Transaction F) :=
  filter (fun t => present (Amount t)) l.

Lemma matching_In (m : pd.Period) (df : DataFrame F) (t : Transaction F) :
  In t (matching m df) <-> In t (rows df) /\ in_month m (Date t).
Proof.
  unfold matching. rewrite filter_In, in_monthb_spec. tauto.
Qed.

Lemma monthly_data_matching (m : pd.Period) (df : DataFrame F) :
  boolean_index (rows df)
    (map (fun ym => pd.eqb ym m) (map to_period (map Date (rows df))))
  = matching m df.
Proof.
  rewrite !map_map. rewrite boolean_index_map. unfold matching.
  apply filter_ext. intros t. apply pd_eqb_in_monthb.
Qed.

(** The group keys of [groupby]: the distinct categories in ascending
    order. *)
Definition keys_of (l : list (Transaction F)) : list string :=
  isort String.leb (unique String.eqb (map Budget_Category l)).

Lemma keys_of_In (l : list (Transaction F)) (c : string) :
  In c (keys_of l) <-> exists t, In t l /\ Budget_Category t = c.
Proof.
  unfold keys_of.
  pose proof (isort_perm String.leb (unique String.eqb (map Budget_Category l))) as Hp.
  split.
  - intros Hin. apply (Permutation_in _ (Permutation_sym Hp)) in Hin.
    apply (proj1 (unique_In _ String.eqb_eq c _)) in Hin.
    apply in_map_iff in Hin. destruct Hin as [t [Ht Hin]]. exists t. auto.
  - intros [t [Hin Ht]]. apply (Permutation_in _ Hp).
    apply (proj2 (unique_In _ String.eqb_eq c _)).
    apply in_map_iff. exists t. auto.
Qed.

Lemma keys_of_NoDup (l : list (Transaction F)) : NoDup (keys_of l).
Proof.
  unfold keys_of. eapply Permutation_NoDup; [apply isort_perm|].
  apply unique_NoDup, String.eqb_eq.
Qed.

Lemma keys_of_strictly_sorted (l : list (Transaction F)) :
  StronglySorted (fun a b => String.ltb a b = true) (keys_of l).
Proof.
  apply StronglySorted_strict with (R := fun a b => String.leb a b = true).
  - intros x y. apply string_leb_ltb.
  - apply keys_of_NoDup.
  - unfold keys_of. apply isort_sorted.
    + apply String.leb_total.
    + apply string_leb_trans.
Qed.

(** The row of the table for the category [k]. *)
Definition row_of (numeric : bool) (l : list (Transaction F)) (k : string)
    : Totals.row string :=
  let cells := dropna (map Amount (filter (fun t => (Budget_Category t =? k)%string) l)) in
  Totals.mk k (fmt_currency (if numeric then round2 (fsum cells) else fsum cells))
    (List.length cells).

(** The frame of line 120, before the last sort. *)
Definition table (numeric : bool) (l : list (Transaction F)) : list (Totals.row string) :=
  apply_currency (category_totals numeric l).

Lemma table_rows (numeric : bool) (l : list (Transaction F)) :
  table numeric l = map (row_of numeric l) (keys_of l).
Proof.
  unfold table, apply_currency, category_totals, round_2, groupby_agg, row_of.
  fold (keys_of l). rewrite !map_map. reflexivity.
Qed.

Lemma table_keys (numeric : bool) (l : list (Transaction F)) :
  map Totals.Category (table numeric l) = keys_of l.
Proof.
  rewrite table_rows, map_map. cbn. apply map_id.
Qed.

Lemma sort_values_grouped (numeric : bool) (l : list (Transaction F)) :
  sort_values K Totals.Category true (table numeric l) = table numeric l.
Proof.
  set (shown := table numeric l).
  pose proof (sort_values_perm K Totals.Category true shown) as Hperm.
  symmetry.
  apply strictly_sorted_perm_eq
    with (R := fun a b => String.ltb (Totals.Category a) (Totals.Category b) = true).
  - intros x y. apply string_ltb_asym.
  - apply StronglySorted_map_inv
      with (R := fun a b => String.ltb a b = true) (f := @Totals.Category string).
    unfold shown. rewrite table_keys. apply keys_of_strictly_sorted.
  - apply StronglySorted_map_inv
      with (R := fun a b => String.ltb a b = true) (f := @Totals.Category string).
    apply StronglySorted_strict with (R := fun a b => String.leb a b = true).
    + intros x y. apply string_leb_ltb.
    + eapply Permutation_NoDup; [apply Permutation_map, Hperm|].
      unfold shown. rewrite table_keys. apply keys_of_NoDup.
    + apply StronglySorted_map with (R := fun a b => String.leb a b = true).
      apply sort_values_ascending.
  - exact Hperm.
Qed.

Lemma monthly_totals_table (inp : input.t F) (df : DataFrame F) (m : pd.Period) :
  input.selected_month inp = input.sent (Some m) ->
  fst (monthly_totals K inp df) = inr (table (is_numeric (rows df)) (matching m df)).
Proof.
  intros Hsel.
  cbv [monthly_totals bind budget_data_call setitem_YearMonth ret input_call].
  rewrite Hsel, monthly_data_matching.
  fold (table (is_numeric (rows df)) (matching m df)).
  destruct (len df =? 0)%nat eqn:Hlen.
  - apply Nat.eqb_eq, length_zero_iff_nil in Hlen.
    unfold matching. rewrite Hlen. reflexivity.
  - destruct (List.length (matching m df) =? 0)%nat eqn:Hm.
    + apply Nat.eqb_eq, length_zero_iff_nil in Hm. rewrite Hm. reflexivity.
    + cbn [fst]. rewrite sort_values_grouped. reflexivity.
Qed.

Lemma monthly_totals_state (inp : input.t F) (df : DataFrame F) :
  snd (monthly_totals K inp df) =
    if (len df =? 0)%nat then df
    else match input.selected_month inp with
         | input.sent (Some _) => mkDataFrame (rows df) (Some (map Some (periods df)))
         | _ => df
         end.
Proof.
  cbv [monthly_totals bind budget_data_call setitem_YearMonth ret input_call raise].
  fold (periods df).
  destruct (len df =? 0)%nat; [reflexivity|].
  destruct (input.selected_month inp) as [|[m|]]; try reflexivity.
  match goal with
  | |- context [if ?c then _ else _] => destruct c
  end; reflexivity.
Qed.

Lemma monthly_totals_rows (inp : input.t F) (df : DataFrame F) :
  rows (snd (monthly_totals K inp df)) = rows df.
Proof.
  rewrite monthly_totals_state.
  destruct (len df =? 0)%nat; [reflexivity|].
  destruct (input.selected_month inp) as [|[m|]]; reflexivity.
Qed.

(** C10. On a store that holds transactions, a selected month in which
    none of them falls gives a table without rows, and no exception. *)
Theorem monthly_totals_no_match_C10 (inp : input.t F) (df : DataFrame F)
    (m : pd.Period) :
  snapshot df <> [] ->
  input.selected_month inp = input.sent (Some m) ->
  (forall t, In t (snapshot df) -> to_period (Date t) <> m) ->
  fst (monthly_totals K inp df) = inr [].
Proof.
  unfold snapshot. intros Hne Hsel Hno.
  rewrite (monthly_totals_table inp df m Hsel).
  replace (matching m df) with (@nil (Transaction F)); [reflexivity|].
  symmetry. destruct (matching m df) as [|t l] eqn:Hmatch; [reflexivity|].
  assert (Hin : In t (matching m df)) by (rewrite Hmatch; left; reflexivity).
  apply matching_In in Hin. destruct Hin as [Hin Hm].
  elim (Hno t Hin). apply to_period_in_month, Hm.
Qed.

End MonthlyTotals.

Section TotalsByCategory.
Context {F : Type} {num : Number F}.
Variable K : SortKind.


Lemma dropna_length (l : list (Transaction F)) :
  List.length (dropna (map Amount l)) = List.length (with_amount l).
Proof.
  unfold dropna, with_amount.
  induction l as [|t l IH]; [reflexivity|].
  cbn [map flat_map filter]. destruct (Amount t); cbn [present app List.length].
  - f_equal. exact IH.
  - exact IH.
Qed.



Lemma table_row (numeric : bool) (l : list (Transaction F)) (r : Totals.row string) :
  In r (table numeric l) ->
  In (Totals.Category r) (keys_of l) /\ r = row_of numeric l (Totals.Category r).
Proof.
  rewrite table_rows. intros Hin. apply in_map_iff in Hin.
  destruct Hin as [k [<- Hk]]. split; [exact Hk|reflexivity].
Qed.


(** X7. The table does not depend on the sorting algorithm behind
    [sort_values]: the groups already come one per category in ascending
    order, so any two algorithms return the same rows in the same order. *)
Theorem monthly_totals_any_sort_kind_X7 (K1 K2 : SortKind)
    (inp : input.t F) (df : DataFrame F) :
  fst (monthly_totals K1 inp df) = fst (monthly_totals K2 inp df).
Proof.
  destruct (input.selected_month inp) as [|[m|]] eqn:Hsel.
  - cbv [monthly_totals bind budget_data_call ret input_call raise].
    rewrite Hsel. destruct (len df =? 0)%nat; reflexivity.
  - rewrite (monthly_totals_table K1 inp df m Hsel).
    rewrite (monthly_totals_table K2 inp df m Hsel). reflexivity.
  - cbv [monthly_totals bind budget_data_call ret input_call raise].
    rewrite Hsel. destruct (len df =? 0)%nat; reflexivity.
Qed.

End TotalsByCategory.

Section TotalsEdges.
Context {F : Type} {num : Number F}.
Variable K : SortKind.

(** X6. When nothing is stored the totals are the empty table, whatever the
    month select holds.  When transactions are stored, the month select is
    read: a select the browser has not sent yet stops the renderer with the
    silent exception, a select without a value gives the empty table.  In
    all three cases the stored frame is not touched. *)
Theorem monthly_totals_nothing_to_show_X6 (inp : input.t F) (df : DataFrame F) :
  (snapshot df = [] -> monthly_totals K inp df = (inr [], df)) /\
  (snapshot df <> [] -> input.selected_month inp = input.not_sent ->
   monthly_totals K inp df = (inl SilentException, df)) /\
  (input.selected_month inp = input.sent None ->
   monthly_totals K inp df = (inr [], df)).
Proof.
  unfold snapshot.
  cbv [monthly_totals bind budget_data_call setitem_YearMonth ret input_call raise].
  unfold len. split; [|split].
  - intros ->. reflexivity.
  - intros Hne ->. destruct (rows df); [congruence|reflexivity].
  - intros ->. destruct (rows df); reflexivity.
Qed.

Lemma table_counts (numeric : bool) (l : list (Transaction F)) :
  map Totals.Transaction_Count (table numeric l)
  = map (fun k => List.length
                    (with_amount (filter (fun t => (Budget_Category t =? k)%string) l)))
        (keys_of l).
Proof.
  rewrite table_rows, map_map. apply map_ext. intros k.
  unfold row_of. cbn [Totals.Transaction_Count]. apply dropna_length.
Qed.

Lemma list_sum_one_key (c : string) (s : string -> nat) (keys : list string) :
  NoDup keys -> In c keys ->
  list_sum (map (fun k => if (c =? k)%string then S (s k) else s k) keys)
  = S (list_sum (map s keys)).
Proof.
  induction 1 as [|k keys Hnin Hnd IH]; intros Hin; [contradiction|].
  cbn [map]. destruct (String.eqb_spec c k) as [->|Hne].
  - assert (Hsame : map (fun k' => if (k =? k')%string then S (s k') else s k') keys
                    = map s keys).
    { apply map_ext_in. intros k' Hk'.
      destruct (String.eqb_spec k k') as [->|_]; [contradiction|reflexivity]. }
    rewrite Hsame. reflexivity.
  - destruct Hin as [Heq|Hin]; [congruence|].
    change (list_sum (?x :: ?l)) with (x + list_sum l)%nat.
    rewrite (IH Hin). apply Nat.add_succ_r.
Qed.

Lemma list_sum_groups (keys : list string) (l : list (Transaction F)) :
  NoDup keys ->
  (forall t, In t l -> In (Budget_Category t) keys) ->
  list_sum (map (fun k => List.length
                   (with_amount (filter (fun t => (Budget_Category t =? k)%string) l)))
              keys)
  = List.length (with_amount l).
Proof.
  intros Hnd. induction l as [|t l IH]; intros Hcover.
  - cbn [filter with_amount List.length]. clear Hnd Hcover.
    induction keys as [|k keys IHk]; [reflexivity|exact IHk].
  - assert (IH' := IH (fun t' Ht' => Hcover t' (or_intror Ht'))).
    unfold with_amount in *. cbn [filter].
    destruct (present (Amount t)) eqn:Hp.
    + cbn [List.length]. rewrite <- IH'.
      rewrite <- (list_sum_one_key (Budget_Category t) _ keys Hnd)
        by (apply Hcover; left; reflexivity).
      f_equal. apply map_ext. intros k.
      destruct (Budget_Category t =? k)%string; cbn [filter]; rewrite ?Hp; reflexivity.
    + rewrite <- IH'. f_equal. apply map_ext. intros k.
      destruct (Budget_Category t =? k)%string; cbn [filter]; rewrite ?Hp; reflexivity.
Qed.

(** X8. For a selected month the counts of the table add up to the number
    of that month's transactions that have an amount.  A row counts the
    transactions of its category that have an amount, so its count is zero
    exactly when every amount of the category was left blank. *)
Theorem monthly_totals_counts_X8 (inp : input.t F) (df : DataFrame F) (m : pd.Period) :
  input.selected_month inp = input.sent (Some m) ->
  exists out : list (Totals.row string),
    fst (monthly_totals K inp df) = inr out /\
    list_sum (map Totals.Transaction_Count out)
      = List.length (with_amount (matching m df)) /\
    (forall r, In r out ->
       (Totals.Transaction_Count r = 0%nat <->
        forall t, In t (group_of m (Totals.Category r) df) -> Amount t = None)).
Proof.
  intros Hsel. eexists. split; [apply (monthly_totals_table K inp df m Hsel)|]. split.
  - rewrite table_counts. apply list_sum_groups; [apply keys_of_NoDup|].
    intros t Ht. apply keys_of_In. exists t. auto.
  - intros r Hr. apply table_row in Hr. destruct Hr as [_ Hr].
    rewrite Hr at 1. unfold row_of. cbn [Totals.Transaction_Count].
    rewrite dropna_length. fold (matching m df). unfold group_of, with_amount.
    set (g := filter _ (matching m df)). split.
    + intros Hlen t Ht. destruct (Amount t) as [x|] eqn:Hx; [|reflexivity].
      assert (Hin : In t (filter (fun t => present (Amount t)) g))
        by (apply filter_In; rewrite Hx; auto).
      apply length_zero_iff_nil in Hlen. rewrite Hlen in Hin. contradiction.
    + intros Hall. destruct (filter _ g) as [|t f] eqn:Hf; [reflexivity|].
      assert (Hin : In t (filter (fun t => present (Amount t)) g))
        by (rewrite Hf; left; reflexivity).
      apply filter_In in Hin. destruct Hin as [Hin Hp].
      rewrite (Hall t Hin) in Hp. discriminate Hp.
Qed.

Lemma table_nil_iff (numeric : bool) (l : list (Transaction F)) :
  table numeric l = [] <-> l = [].
Proof.
  split.
  - intros Hnil. destruct l as [|t l]; [reflexivity|].
    assert (Hin : In (Budget_Category t) (keys_of (t :: l))).
    { apply keys_of_In. exists t. split; [left|]; reflexivity. }
    rewrite <- (table_keys numeric), Hnil in Hin. contradiction.
  - intros ->. reflexivity.
Qed.

(** X9. The selector and the table agree: a month is among the selector's
    choices exactly when the totals for that month have at least one row. *)
Theorem selector_months_have_totals_X9 (inp : input.t F) (df : DataFrame F)
    (m : pd.Period) :
  input.selected_month inp = input.sent (Some m) ->
  exists tag out,
    fst (month_selector df) = inr tag /\
    fst (monthly_totals K inp df) = inr out /\
    (In m (listMonths tag) <-> out <> []).
Proof.
  intros Hsel.
  destruct (month_selector_months df) as [tag [Htag Hlist]].
  exists tag. eexists. split; [exact Htag|].
  split; [apply (monthly_totals_table K inp df m Hsel)|].
  rewrite Hlist, months_of_In, table_nil_iff. split.
  - intros [t [Hin Hm]] Hnil.
    assert (Hmatch : In t (matching m df)) by (apply matching_In; auto).
    rewrite Hnil in Hmatch. contradiction.
  - intros Hnn. destruct (matching m df) as [|t l] eqn:Hmatch; [congruence|].
    assert (Hin : In t (matching m df)) by (rewrite Hmatch; left; reflexivity).
    apply matching_In in Hin. exists t. exact Hin.
Qed.

End TotalsEdges.

(** ** Date texts order like dates *)










(** ** The transaction table *)

(** The row [r] of the table shows the transaction [t]: the date as text,
    the amount as currency, the other five fields as they are stored. *)
Definition shown_as {F} {num : Number F} (t : Transaction F) (r : Display.row) : Prop :=
  exists x, Amount t = Some x /\
    r = Display.mk (strftime (Date t)) (Description t) (fmt_currency x)
          (Vendor t) (Budget_Category t) (Buyer t) (Notes t).


Section TransactionTable.
Context {F : Type} {num : Number F}.
Variable K : SortKind.

Definition amount_text (t : Transaction F) : string :=
  match Amount t with Some x => fmt_currency x | None => "" end.

Definition display (t : Transaction F) : Display.row := display_row t (amount_text t).

Lemma apply_format_present (l : list (Transaction F)) :
  (forall t, In t l -> Amount t <> None) ->
  apply_format (map Amount l) = inr (map amount_text l).
Proof.
  induction l as [|t l IH]; intros Hall; [reflexivity|].
  cbn [map apply_format]. unfold amount_text at 1.
  destruct (Amount t) as [x|] eqn:Hx; [|elim (Hall t (or_introl eq_refl) Hx)].
  rewrite IH by (intros t' Ht'; apply Hall; right; exact Ht'). reflexivity.
Qed.

Lemma apply_format_blank (l : list (Transaction F)) :
  (exists t, In t l /\ Amount t = None) ->
  apply_format (map Amount l) = inl TypeError.
Proof.
  induction l as [|t l IH]; intros [t' [Hin Hnone]]; [contradiction|].
  cbn [map apply_format]. destruct (Amount t) as [x|] eqn:Hx; [|reflexivity].
  destruct Hin as [->|Hin]; [congruence|].
  rewrite IH by (exists t'; auto). reflexivity.
Qed.

Lemma combine_map_display (l : list (Transaction F)) :
  map (fun ta => display_row (fst ta) (snd ta)) (combine l (map amount_text l))
  = map display l.
Proof.
  induction l as [|t l IH]; [reflexivity|]. cbn. rewrite IH. reflexivity.
Qed.

Lemma all_transactions_state (df : DataFrame F) :
  snd (all_transactions K df) = df.
Proof.
  cbv [all_transactions bind budget_data_call ret raise].
  destruct (len df =? 0)%nat; [reflexivity|].
  destruct (apply_format (map Amount (rows df))); reflexivity.
Qed.

Lemma all_transactions_run (df : DataFrame F) :
  (forall t, In t (rows df) -> Amount t <> None) ->
  all_transactions K df =
    (inr (sort_values K Display.Date false (map display (rows df))), df).
Proof.
  intros Hall.
  cbv [all_transactions bind budget_data_call ret raise].
  destruct (len df =? 0)%nat eqn:Hlen.
  - apply Nat.eqb_eq, length_zero_iff_nil in Hlen. rewrite Hlen.
    cbn [map]. rewrite sort_values_nil. reflexivity.
  - rewrite (apply_format_present _ Hall), combine_map_display. reflexivity.
Qed.

Lemma all_transactions_raises (df : DataFrame F) :
  (exists t, In t (rows df) /\ Amount t = None) ->
  all_transactions K df = (inl TypeError, df).
Proof.
  intros Hblank.
  cbv [all_transactions bind budget_data_call ret raise].
  destruct (len df =? 0)%nat eqn:Hlen.
  - apply Nat.eqb_eq, length_zero_iff_nil in Hlen.
    destruct Hblank as [t [Hin _]]. rewrite Hlen in Hin. contradiction.
  - rewrite (apply_format_blank _ Hblank). reflexivity.
Qed.

Lemma display_shown_as (l : list (Transaction F)) :
  (forall t, In t l -> Amount t <> None) -> Forall2 shown_as l (map display l).
Proof.
  induction l as [|t l IH]; intros Hall; [constructor|].
  cbn [map]. constructor.
  - unfold shown_as, display, display_row, amount_text.
    destruct (Amount t) as [x|] eqn:Hx; [|elim (Hall t (or_introl eq_refl) Hx)].
    exists x. split; reflexivity.
  - apply IH. intros t' Ht'. apply Hall. right. exact Ht'.
Qed.

Lemma all_transactions_shown (df : DataFrame F) :
  (forall t, In t (rows df) -> Amount t <> None) ->
  exists shown,
    all_transactions K df = (inr (map display shown), df) /\
    Permutation (rows df) shown /\
    StronglySorted
      (fun above below =>
         String.leb (strftime (Date below)) (strftime (Date above)) = true) shown.
Proof.
  intros Hall. rewrite (all_transactions_run df Hall).
  pose proof (sort_values_perm K Display.Date false (map display (rows df))) as Hperm.
  destruct (Permutation_map_inv _ _ (Permutation_sym Hperm)) as [shown [Hout Hshown]].
  exists shown. split; [rewrite Hout; reflexivity|]. split; [exact Hshown|].
  pose proof (sort_values_descending K Display.Date (map display (rows df))) as Hs.
  rewrite Hout in Hs. apply StronglySorted_map_inv in Hs. exact Hs.
Qed.


(** X15. The transaction table raises [TypeError] when some stored amount
    was left blank, whatever the other rows hold.  Otherwise, whatever the
    stored dates, it neither drops nor invents a row: it has as many rows as
    the store and shows each stored transaction once.  Either way the store
    is left as it was. *)
Theorem all_transactions_shows_every_row_X15 (df : DataFrame F) :
  ((exists t, In t (snapshot df) /\ Amount t = None) ->
   all_transactions K df = (inl TypeError, df)) /\
  ((forall t, In t (snapshot df) -> Amount t <> None) ->
   exists (shown : list (Transaction F)) (out : list Display.row),
     all_transactions K df = (inr out, df) /\
     List.length out = List.length (snapshot df) /\
     Forall2 shown_as shown out /\
     Permutation (snapshot df) shown).
Proof.
  unfold snapshot. split; [apply all_transactions_raises|].
  intros Hall.
  destruct (all_transactions_shown df Hall) as [shown [Hrun [Hperm _]]].
  exists shown, (map display shown). split; [exact Hrun|]. split.
  - rewrite length_map. symmetry. apply Permutation_length, Hperm.
  - split; [|exact Hperm].
    apply display_shown_as. intros t Ht. apply Hall.
    eapply Permutation_in; [apply Permutation_sym, Hperm|exact Ht].
Qed.

End TransactionTable.

(** ** numpy's quicksort

    [sort_values] without [kind] sorts with numpy's [argsort] of kind
    quicksort, here [npy_aquicksort]: an array of row positions is
    rearranged in place.  Ranges of more than 17 positions are split around
    the median of three, ranges of up to 17 positions are sorted by
    insertion.  The switch to heapsort, which numpy makes when the splits run
    deeper than twice the binary logarithm of the length, is not modelled:
    such a range is sorted by insertion instead. *)

Module npysort.
Section Argsort.
Context {A : Type} (le : A -> A -> bool) (v : list A) (d : A).

(** [cmp(a, b) < 0]. *)
Definition lt (a b : A) : bool := negb (le b a).

Definition get (tosort : list nat) (p : nat) : nat := nth p tosort 0%nat.

Fixpoint set (tosort : list nat) (p x : nat) : list nat :=
  match tosort, p with
  | [], _ => []
  | _ :: rest, O => x :: rest
  | y :: rest, S p' => y :: set rest p' x
  end.

(** [v[*p]]. *)
Definition key (tosort : list nat) (p : nat) : A := nth (get tosort p) v d.

(** [INTP_SWAP]. *)
Definition swap (tosort : list nat) (p q : nat) : list nat :=
  set (set tosort p (get tosort q)) q (get tosort p).

(** [do ++pi while (v[*pi] < vp)], entered at the incremented position. *)
Fixpoint scan_up (fuel : nat) (vp : A) (tosort : list nat) (pi : nat) : nat :=
  match fuel with
  | O => pi
  | S fuel' => if lt (key tosort pi) vp then scan_up fuel' vp tosort (S pi) else pi
  end.

(** [do --pj while (vp < v[*pj])], entered at the decremented position. *)
Fixpoint scan_down (fuel : nat) (vp : A) (tosort : list nat) (pj : nat) : nat :=
  match fuel with
  | O => pj
  | S fuel' => if lt vp (key tosort pj) then scan_down fuel' vp tosort (pred pj) else pj
  end.

Fixpoint exchange (fuel : nat) (vp : A) (tosort : list nat) (pi pj : nat)
    : nat * list nat :=
  match fuel with
  | O => (pi, tosort)
  | S fuel' =>
      let pi := scan_up (List.length tosort) vp tosort (S pi) in
      let pj := scan_down (List.length tosort) vp tosort (pred pj) in
      if (pj <=? pi)%nat then (pi, tosort)
      else exchange fuel' vp (swap tosort pi pj) pi pj
  end.

(** One pass of the loop "quicksort partition" on the range [pl..pr]. *)
Definition partition (tosort : list nat) (pl pr : nat) : nat * list nat :=
  let pm := (pl + (pr - pl) / 2)%nat in
  let tosort := if lt (key tosort pm) (key tosort pl) then swap tosort pm pl else tosort in
  let tosort := if lt (key tosort pr) (key tosort pm) then swap tosort pr pm else tosort in
  let tosort := if lt (key tosort pm) (key tosort pl) then swap tosort pm pl else tosort in
  let vp := key tosort pm in
  let pj := (pr - 1)%nat in
  let tosort := swap tosort pm pj in
  let '(pi, tosort) := exchange (List.length tosort) vp tosort pl pj in
  (pi, swap tosort pi (pr - 1)%nat).

(** The inner loop of the insertion sort: the positions before [pj] whose
    key is greater than [vp] move up by one. *)
Fixpoint shift (fuel : nat) (vp : A) (vi pl : nat) (tosort : list nat) (pj : nat)
    : list nat :=
  match fuel with
  | O => set tosort pj vi
  | S fuel' =>
      if (pl <? pj)%nat && lt vp (key tosort (pj - 1)%nat)
      then shift fuel' vp vi pl (set tosort pj (get tosort (pj - 1)%nat)) (pj - 1)%nat
      else set tosort pj vi
  end.

Definition insertion_sort (tosort : list nat) (pl pr : nat) : list nat :=
  fold_left
    (fun tosort pi =>
       let vi := get tosort pi in
       shift (List.length tosort) (nth vi v d) vi pl tosort pi)
    (seq (S pl) (pr - pl)) tosort.

(** The outer loop with its stack of pending ranges.  [inner] tells that
    control is inside the partition loop, where the depth is not tested. *)
Fixpoint loop (fuel : nat) (inner : bool) (tosort : list nat) (pl pr : nat)
    (cdepth : Z) (stack : list (nat * nat * Z)) : list nat :=
  match fuel with
  | O => tosort
  | S fuel' =>
      let pop tosort :=
        match stack with
        | [] => tosort
        | (pl', pr', cdepth') :: stack' => loop fuel' false tosort pl' pr' cdepth' stack'
        end in
      if negb inner && (cdepth <? 0) then pop (insertion_sort tosort pl pr)
      else if (16 <? pr - pl)%nat then
        let '(pi, tosort) := partition tosort pl pr in
        let cdepth := cdepth - 1 in
        if (pi - pl <? pr - pi)%nat
        then loop fuel' true tosort pl (pi - 1)%nat cdepth (((S pi), pr, cdepth) :: stack)
        else loop fuel' true tosort (S pi) pr cdepth ((pl, (pi - 1)%nat, cdepth) :: stack)
      else pop (insertion_sort tosort pl pr)
  end.

(** [numpy.argsort(v, kind='quicksort')]. *)
Definition argsort : list nat :=
  let num := List.length v in
  loop (2 * num + 2) false (seq 0 num) 0 (num - 1)
    (2 * Z.of_nat (Nat.log2 num)) [].

End Argsort.
End npysort.

(** The rows taken in the order of the positions [argsort] returns.  That
    the positions are a rearrangement of the rows in key order is checked on
    the result, which makes the algorithm a [SortKind] without a proof about
    its loops; a result that failed the check would be replaced by the
    insertion sort. *)

Fixpoint sortedb {A} (le : A -> A -> bool) (l : list A) : bool :=
  match l with
  | [] => true
  | x :: l' => forallb (le x) l' && sortedb le l'
  end.

Definition is_rearrangement (n : nat) (tosort : list nat) : bool :=
  (List.length tosort =? n)%nat
  && forallb (fun i => existsb (Nat.eqb i) tosort) (seq 0 n).

Definition quicksort_by (A : Type) (le : A -> A -> bool) (l : list A) : list A :=
  match l with
  | [] => []
  | d :: _ =>
      let tosort := npysort.argsort le l d in
      let taken := map (fun i => nth i l d) tosort in
      if is_rearrangement (List.length l) tosort && sortedb le taken then taken
      else isort le l
  end.

Lemma sortedb_sorted {A} (le : A -> A -> bool) (l : list A) :
  sortedb le l = true -> StronglySorted (fun x y => le x y = true) l.
Proof.
  induction l as [|x l IH]; cbn; intros H; [constructor|].
  apply andb_true_iff in H. destruct H as [Hx Hl].
  constructor; [apply IH, Hl|]. apply Forall_forall, forallb_forall, Hx.
Qed.

Lemma is_rearrangement_perm (n : nat) (tosort : list nat) :
  is_rearrangement n tosort = true -> Permutation (seq 0 n) tosort.
Proof.
  unfold is_rearrangement. intros H. apply andb_true_iff in H.
  destruct H as [Hlen Hall]. apply Nat.eqb_eq in Hlen.
  apply NoDup_Permutation_bis.
  - apply seq_NoDup.
  - rewrite length_seq, Hlen. apply Nat.le_refl.
  - intros i Hi. rewrite forallb_forall in Hall. specialize (Hall i Hi).
    apply existsb_exists in Hall. destruct Hall as [j [Hj Heq]].
    apply Nat.eqb_eq in Heq. subst. exact Hj.
Qed.

Lemma map_nth_seq {A} (l : list A) (d : A) :
  map (fun i => nth i l d) (seq 0 (List.length l)) = l.
Proof.
  induction l as [|x l IH]; [reflexivity|].
  cbn [List.length seq map nth]. f_equal.
  rewrite <- seq_shift, map_map. exact IH.
Qed.

Lemma quicksort_by_perm (A : Type) (le : A -> A -> bool) (l : list A) :
  Permutation l (quicksort_by A le l).
Proof.
  unfold quicksort_by. destruct l as [|d l']; [constructor|].
  set (l := d :: l').
  destruct (is_rearrangement (List.length l) (npysort.argsort le l d)
            && sortedb le (map (fun i => nth i l d) (npysort.argsort le l d))) eqn:Hcheck.
  - apply andb_true_iff in Hcheck. destruct Hcheck as [Hperm _].
    rewrite <- (map_nth_seq l d) at 1.
    apply Permutation_map, is_rearrangement_perm, Hperm.
  - apply isort_perm.
Qed.

Lemma quicksort_by_sorted (A : Type) (le : A -> A -> bool) (l : list A) :
  (forall x y, le x y = true \/ le y x = true) ->
  (forall x y z, le x y = true -> le y z = true -> le x z = true) ->
  StronglySorted (fun x y => le x y = true) (quicksort_by A le l).
Proof.
  intros Htot Htr. unfold quicksort_by. destruct l as [|d l']; [constructor|].
  set (l := d :: l').
  destruct (is_rearrangement (List.length l) (npysort.argsort le l d)
            && sortedb le (map (fun i => nth i l d) (npysort.argsort le l d))) eqn:Hcheck.
  - apply andb_true_iff in Hcheck. destruct Hcheck as [_ Hs].
    apply sortedb_sorted, Hs.
  - apply isort_sorted; assumption.
Qed.

(** The algorithm of the default [kind]. *)
Definition quicksort : SortKind :=
  mkSortKind quicksort_by quicksort_by_perm quicksort_by_sorted.

(** ** The currency text *)












Section CurrencyTotals.
Variable K : SortKind.


End CurrencyTotals.

(** ** The frame behind [budget_data] across handlers *)

(** The frame [df] with the column [YearMonth] assigned: one cell per row,
    holding the year and the month of the row's date. *)
Definition assigned {F} (df : DataFrame F) : DataFrame F :=
  mkDataFrame (rows df)
    (Some (map (fun t => Some (pd.mkPeriod (datetime.year (Date t))
                                 (datetime.month (Date t))))
               (rows df))).

(** The row an accepted submission stores. *)
Definition submitted {F} (inp : input.t F) : Transaction F :=
  mkTransaction (input.date inp) (input.description inp) (input.amount inp)
    (input.vendor inp) (input.category inp) (input.buyer inp) (input.notes inp).

Section FrameStates.
Context {F : Type} {num : Number F}.
Variable K : SortKind.

Lemma assigned_periods (df : DataFrame F) :
  mkDataFrame (rows df) (Some (map Some (periods df))) = assigned df.
Proof.
  unfold assigned, periods. rewrite !map_map. reflexivity.
Qed.

Lemma len_zero_iff (df : DataFrame F) : (len df =? 0)%nat = true <-> rows df = [].
Proof.
  unfold len. rewrite Nat.eqb_eq. apply length_zero_iff_nil.
Qed.

Lemma month_selector_state (df : DataFrame F) :
  snd (month_selector df) = if (len df =? 0)%nat then df else assigned df.
Proof.
  rewrite <- assigned_periods.
  cbv [month_selector bind budget_data_call setitem_YearMonth ret].
  fold (periods df).
  destruct (len df =? 0)%nat; [reflexivity|].
  match goal with
  | |- context [if ?c then _ else _] => destruct c
  end; reflexivity.
Qed.

Lemma monthly_totals_assigns (inp : input.t F) (df : DataFrame F) :
  snd (monthly_totals K inp df) =
    if (len df =? 0)%nat then df
    else match input.selected_month inp with
         | input.sent (Some _) => assigned df
         | _ => df
         end.
Proof.
  rewrite monthly_totals_state, assigned_periods. reflexivity.
Qed.

(** X1. What each handler leaves in [budget_data].  On a store with rows
    the month selector, and the monthly totals once a month is selected,
    leave the frame with the column [YearMonth] assigned, a cell per row
    with the year and month of its date, the seven stored columns as they
    were; on an empty store, or without a selected month, they leave the
    frame as it was.  The transaction table always leaves it as it was.  An
    accepted append leaves the rows followed by the submitted row, and a
    [YearMonth] column that was there one empty cell longer; a rejected one
    leaves the frame as it was.  Clearing leaves the empty frame without the
    column. *)
Theorem handlers_frame_effects_X1 (inp : input.t F) (df : DataFrame F) :
  (snapshot df = [] ->
   snd (month_selector df) = df /\ snd (monthly_totals K inp df) = df) /\
  (snapshot df <> [] ->
   snd (month_selector df) = assigned df /\
   (forall m, input.selected_month inp = input.sent (Some m) ->
              snd (monthly_totals K inp df) = assigned df) /\
   (input.selected_month inp = input.not_sent \/
    input.selected_month inp = input.sent None ->
    snd (monthly_totals K inp df) = df)) /\
  snd (all_transactions K df) = df /\
  (input.description inp <> "" -> input.vendor inp <> "" -> input.buyer inp <> "" ->
   snd (add_new_transaction inp df) =
     mkDataFrame (snapshot df ++ [submitted inp])
       (match YearMonth df with
        | Some col => Some (col ++ [None])%list
        | None => None
        end)) /\
  (input.description inp = "" \/ input.vendor inp = "" \/ input.buyer inp = "" ->
   snd (add_new_transaction inp df) = df) /\
  snd (clear_all_data df) = mkDataFrame [] None.
Proof.
  unfold snapshot.
  split; [|split; [|split; [|split; [|split]]]].
  - intros Hempty. apply len_zero_iff in Hempty.
    rewrite month_selector_state, monthly_totals_assigns, Hempty. auto.
  - intros Hne.
    assert (Hlen : (len df =? 0)%nat = false).
    { destruct (len df =? 0)%nat eqn:E; [|reflexivity].
      apply len_zero_iff in E. contradiction. }
    rewrite month_selector_state, monthly_totals_assigns, Hlen.
    split; [reflexivity|]. split.
    + intros m ->. reflexivity.
    + intros [-> | ->]; reflexivity.
  - apply all_transactions_state.
  - intros Hd Hv Hb. rewrite add_new_transaction_accepts by assumption.
    unfold pd_concat, submitted. cbn [snd rows YearMonth len List.length repeat].
    destruct (YearMonth df); reflexivity.
  - intros Hbad. rewrite add_new_transaction_cancels by assumption. reflexivity.
  - reflexivity.
Qed.


(** X3. The month selector and the monthly totals assign the same column:
    rendered in either order, or one of them twice, the frame ends up as
    after the month selector alone. *)
Theorem renders_assign_once_X3 (inp : input.t F) (df : DataFrame F) :
  snd (month_selector (snd (month_selector df))) = snd (month_selector df) /\
  snd (monthly_totals K inp (snd (month_selector df))) = snd (month_selector df) /\
  snd (month_selector (snd (monthly_totals K inp df))) = snd (month_selector df).
Proof.
  assert (Hassigned : assigned (assigned df) = assigned df) by reflexivity.
  assert (Hlen' : len (assigned df) = len df) by reflexivity.
  destruct (len df =? 0)%nat eqn:Hlen.
  - assert (Hsel : snd (month_selector df) = df)
      by (rewrite month_selector_state, Hlen; reflexivity).
    assert (Htot : snd (monthly_totals K inp df) = df)
      by (rewrite monthly_totals_assigns, Hlen; reflexivity).
    rewrite Htot, !Hsel, Htot. auto.
  - assert (Hsel : snd (month_selector df) = assigned df)
      by (rewrite month_selector_state, Hlen; reflexivity).
    assert (Hsel' : snd (month_selector (assigned df)) = assigned df)
      by (rewrite month_selector_state, Hlen', Hlen; exact Hassigned).
    assert (Htot' : snd (monthly_totals K inp (assigned df)) = assigned df)
      by (rewrite monthly_totals_assigns, Hlen', Hlen;
          destruct (input.selected_month inp) as [|[m|]]; reflexivity).
    rewrite !Hsel, Hsel', Htot'. split; [reflexivity|]. split; [reflexivity|].
    rewrite monthly_totals_assigns, Hlen.
    destruct (input.selected_month inp) as [|[m|]];
      [exact Hsel|exact Hsel'|exact Hsel].
Qed.

End FrameStates.

(** ** More on the month selector *)

Section SelectorExtras.
Context {F : Type} {num : Number F}.

Lemma months_of_nonempty (df : DataFrame F) :
  rows df <> [] -> (List.length (months_of df) =? 0)%nat = false.
Proof.
  intros Hne. apply Nat.eqb_neq. intros Hlen.
  apply length_zero_iff_nil in Hlen.
  destruct (rows df) as [|t l] eqn:Hrows; [congruence|].
  assert (Hin : In (to_period (Date t)) (months_of df)).
  { apply months_of_In. exists t. rewrite Hrows.
    split; [left; reflexivity|]. apply to_period_in_month. reflexivity. }
  rewrite Hlen in Hin. contradiction.
Qed.

(** X4. The selector is replaced by the text "No data available" exactly
    when nothing is stored; with rows in the store a select with at least
    one choice comes back, so the second test of the source (no month found)
    never fires. *)
Theorem month_selector_no_data_X4 (df : DataFrame F) :
  (fst (month_selector df) = inr (ui.p "No data available") <-> snapshot df = []) /\
  (snapshot df <> [] ->
   exists choices selected,
     fst (month_selector df) =
       inr (ui.input_select "selected_month" "Select Month" choices (Some selected)) /\
     choices <> []).
Proof.
  unfold snapshot. rewrite month_selector_run. unfold len.
  destruct (rows df) as [|t l] eqn:Hrows.
  - cbn. split; [tauto|congruence].
  - assert (Hne : rows df <> []) by congruence.
    pose proof (months_of_nonempty df Hne) as Hlen.
    cbn [List.length Nat.eqb]. rewrite Hlen.
    split; [split; discriminate|]. intros _.
    destruct (months_of df) as [|m ms]; [discriminate Hlen|].
    eexists. exists m. split; [reflexivity|]. discriminate.
Qed.

(** X5. With rows in the store the preselected month is the first choice
    of the select and the most recent stored month: some stored transaction
    is dated in it, and every stored transaction is dated in an earlier year,
    or in the same year and not in a later month. *)
Theorem month_selector_preselects_latest_X5 (df : DataFrame F) :
  snapshot df <> [] ->
  exists choices selected,
    fst (month_selector df) =
      inr (ui.input_select "selected_month" "Select Month" choices (Some selected)) /\
    hd_error (map fst choices) = Some selected /\
    (exists t, In t (snapshot df) /\ in_month selected (Date t)) /\
    (forall t, In t (snapshot df) ->
       datetime.year (Date t) < pd.year selected \/
       (datetime.year (Date t) = pd.year selected /\
        datetime.month (Date t) <= pd.month selected)).
Proof.
  unfold snapshot. intros Hne. rewrite month_selector_run.
  pose proof (months_of_nonempty df Hne) as Hlen.
  assert (Hlen0 : (len df =? 0)%nat = false).
  { apply Nat.eqb_neq. unfold len. intros H. apply length_zero_iff_nil in H. auto. }
  rewrite Hlen0, Hlen.
  pose proof (months_of_sorted df) as Hsorted.
  pose proof (months_of_In df) as Hin.
  destruct (months_of df) as [|m ms]; [discriminate Hlen|].
  eexists. exists m. split; [reflexivity|]. split; [reflexivity|]. split.
  - apply Hin. left. reflexivity.
  - intros t Ht.
    assert (Hmem : In (to_period (Date t)) (m :: ms)).
    { apply Hin. exists t. split; [exact Ht|]. apply to_period_in_month. reflexivity. }
    assert (Hle : pd.leb (to_period (Date t)) m = true).
    { destruct Hmem as [<-|Hmem].
      - destruct (pd_leb_total m m); assumption.
      - inversion Hsorted as [|? ? _ Hall]; subst.
        rewrite Forall_forall in Hall. apply Hall, Hmem. }
    unfold pd.leb, pd.compare, to_period in Hle. cbn [pd.year pd.month] in Hle.
    destruct (Z.compare_spec (datetime.year (Date t)) (pd.year m));
      [|lia|discriminate Hle].
    destruct (Z.compare_spec (datetime.month (Date t)) (pd.month m));
      [lia|lia|discriminate Hle].
Qed.

End SelectorExtras.

(** ** Appending, then rendering *)

Section AppendThenRender.
Context {F : Type} {num : Number F}.
Variable K : SortKind.

Lemma add_new_transaction_rows (inp : input.t F) (df : DataFrame F) :
  input.description inp <> "" -> input.vendor inp <> "" -> input.buyer inp <> "" ->
  rows (snd (add_new_transaction inp df)) = (rows df ++ [submitted inp])%list.
Proof.
  intros Hd Hv Hb. rewrite add_new_transaction_accepts by assumption. reflexivity.
Qed.

Lemma matching_app (m : pd.Period) (df df' : DataFrame F) (t : Transaction F) :
  rows df' = (rows df ++ [t])%list ->
  matching m df' = (matching m df ++ if in_monthb m (Date t) then [t] else [])%list.
Proof.
  intros Hrows. unfold matching. rewrite Hrows, filter_app. cbn [filter].
  destruct (in_monthb m (Date t)); reflexivity.
Qed.

(** X11. After an accepted append the selector offers the months it offered
    before and the month of the new date, and no other. *)
Theorem append_adds_its_month_X11 (inp : input.t F) (df : DataFrame F) :
  input.description inp <> "" -> input.vendor inp <> "" -> input.buyer inp <> "" ->
  exists before after,
    fst (month_selector df) = inr before /\
    fst (month_selector (snd (add_new_transaction inp df))) = inr after /\
    (forall m, In m (listMonths after) <->
               In m (listMonths before) \/ m = to_period (input.date inp)).
Proof.
  intros Hd Hv Hb.
  destruct (month_selector_months df) as [before [Hbefore Hlb]].
  destruct (month_selector_months (snd (add_new_transaction inp df)))
    as [after [Hafter Hla]].
  exists before, after. split; [exact Hbefore|]. split; [exact Hafter|].
  intros m. rewrite Hlb, Hla.
  rewrite !months_of_In, (add_new_transaction_rows inp df Hd Hv Hb).
  split.
  - intros [t [Hin Hm]]. apply in_app_or in Hin. destruct Hin as [Hin|[<-|[]]].
    + left. exists t. auto.
    + right. symmetry. apply to_period_in_month. exact Hm.
  - intros [[t [Hin Hm]]| ->].
    + exists t. split; [apply in_or_app; left; exact Hin|exact Hm].
    + exists (submitted inp). split; [apply in_or_app; right; left; reflexivity|].
      apply to_period_in_month. reflexivity.
Qed.

Lemma is_numeric_app (l : list (Transaction F)) (t : Transaction F) :
  is_numeric (l ++ [t]) = is_numeric l && present (Amount t).
Proof.
  unfold is_numeric. rewrite forallb_app. cbn [forallb].
  rewrite andb_true_r. unfold present. reflexivity.
Qed.

Lemma present_true (a : option F) : a <> None -> present a = true.
Proof. destruct a; [reflexivity|congruence]. Qed.

(** X12. An accepted append dated in one month leaves the table of every
    other month with the categories and the counts it had.  When the
    submitted amount is a number the whole table is as it was, totals
    included.  (A blank amount turns the stored column into a column of
    objects, which [round(2)] passes over.) *)
Theorem append_keeps_other_months_X12 (inp : input.t F) (df : DataFrame F)
    (m : pd.Period) :
  input.description inp <> "" -> input.vendor inp <> "" -> input.buyer inp <> "" ->
  input.selected_month inp = input.sent (Some m) ->
  m <> to_period (input.date inp) ->
  exists before after,
    fst (monthly_totals K inp df) = inr before /\
    fst (monthly_totals K inp (snd (add_new_transaction inp df))) = inr after /\
    map Totals.Category after = map Totals.Category before /\
    map Totals.Transaction_Count after = map Totals.Transaction_Count before /\
    (input.amount inp <> None -> after = before).
Proof.
  intros Hd Hv Hb Hsel Hother.
  eexists. eexists.
  split; [apply (monthly_totals_table K inp df m Hsel)|].
  split; [apply (monthly_totals_table K inp _ m Hsel)|].
  rewrite (matching_app m df _ (submitted inp) (add_new_transaction_rows inp df Hd Hv Hb)).
  replace (in_monthb m (Date (submitted inp))) with false.
  - rewrite app_nil_r. split; [rewrite !table_keys; reflexivity|].
    split; [rewrite !table_counts; reflexivity|].
    intros Hamount.
    rewrite (add_new_transaction_rows inp df Hd Hv Hb), is_numeric_app.
    cbn [submitted Amount]. rewrite (present_true _ Hamount), andb_true_r. reflexivity.
  - symmetry. destruct (in_monthb m (Date (submitted inp))) eqn:E; [|reflexivity].
    apply in_monthb_spec, to_period_in_month in E. elim Hother. symmetry. exact E.
Qed.

Lemma keys_of_app (l : list (Transaction F)) (t : Transaction F) (k : string) :
  In k (keys_of (l ++ [t])) <-> In k (keys_of l) \/ k = Budget_Category t.
Proof.
  rewrite !keys_of_In. split.
  - intros [t' [Hin Hk]]. apply in_app_or in Hin. destruct Hin as [Hin|[<-|[]]].
    + left. exists t'. auto.
    + right. symmetry. exact Hk.
  - intros [[t' [Hin Hk]]| ->].
    + exists t'. split; [apply in_or_app; left; exact Hin|exact Hk].
    + exists t. split; [apply in_or_app; right; left|]; reflexivity.
Qed.

Lemma row_of_app_other (numeric : bool) (l : list (Transaction F)) (t : Transaction F)
    (k : string) :
  k <> Budget_Category t -> row_of numeric (l ++ [t]) k = row_of numeric l k.
Proof.
  intros Hk. unfold row_of. rewrite filter_app. cbn [filter].
  destruct (String.eqb_spec (Budget_Category t) k) as [Heq|_]; [congruence|].
  rewrite app_nil_r. reflexivity.
Qed.

(** X13. An accepted append dated in the selected month shows in that
    month's table: its category has a row, which counts the transactions
    with an amount that the category had in the month, and one more when the
    submitted amount is a number.  When it is a number, the rows of all
    other categories are the rows of the table before. *)
Theorem append_updates_its_row_X13 (inp : input.t F) (df : DataFrame F)
    (m : pd.Period) :
  input.description inp <> "" -> input.vendor inp <> "" -> input.buyer inp <> "" ->
  input.selected_month inp = input.sent (Some m) ->
  in_month m (input.date inp) ->
  exists before after,
    fst (monthly_totals K inp df) = inr before /\
    fst (monthly_totals K inp (snd (add_new_transaction inp df))) = inr after /\
    (exists r, In r after /\
       Totals.Category r = input.category inp /\
       Totals.Transaction_Count r =
         (List.length (with_amount (group_of m (input.category inp) df))
          + if present (input.amount inp) then 1 else 0)%nat) /\
    (input.amount inp <> None ->
     forall r, Totals.Category r <> input.category inp ->
               (In r after <-> In r before)).
Proof.
  intros Hd Hv Hb Hsel Hm.
  eexists. eexists.
  split; [apply (monthly_totals_table K inp df m Hsel)|].
  split; [apply (monthly_totals_table K inp _ m Hsel)|].
  rewrite (matching_app m df _ (submitted inp) (add_new_transaction_rows inp df Hd Hv Hb)).
  replace (in_monthb m (Date (submitted inp))) with true
    by (symmetry; apply in_monthb_spec; exact Hm).
  rewrite !table_rows. set (l := matching m df). split.
  - exists (row_of (is_numeric (rows (snd (add_new_transaction inp df))))
              (l ++ [submitted inp]) (input.category inp)). split.
    + apply in_map. apply keys_of_app. right. reflexivity.
    + split; [reflexivity|].
      unfold row_of, group_of. fold l. cbn [Totals.Transaction_Count].
      rewrite !dropna_length. unfold with_amount.
      rewrite filter_app, filter_app, length_app.
      cbn [filter submitted Budget_Category Amount].
      rewrite String.eqb_refl. cbn [filter submitted Amount].
      destruct (present (input.amount inp)); reflexivity.
  - intros Hamount r Hr.
    rewrite (add_new_transaction_rows inp df Hd Hv Hb), is_numeric_app.
    cbn [submitted Amount]. rewrite (present_true _ Hamount), andb_true_r.
    rewrite !in_map_iff. split.
    + intros [k [Hrow Hk]]. exists k.
      assert (Hne : k <> Budget_Category (submitted inp)).
      { intros ->. apply Hr. rewrite <- Hrow. reflexivity. }
      rewrite row_of_app_other in Hrow by exact Hne. split; [exact Hrow|].
      apply keys_of_app in Hk. destruct Hk as [Hk|Hk]; [exact Hk|contradiction].
    + intros [k [Hrow Hk]]. exists k.
      assert (Hne : k <> Budget_Category (submitted inp)).
      { intros ->. apply Hr. rewrite <- Hrow. reflexivity. }
      rewrite row_of_app_other by exact Hne. split; [exact Hrow|].
      apply keys_of_app. left. exact Hk.
Qed.

End AppendThenRender.

(** The English names of the months. *)
Definition month_in_words (m : Z) : string :=
  match m with
  | 1 => "January" | 2 => "February" | 3 => "March" | 4 => "April"
  | 5 => "May" | 6 => "June" | 7 => "July" | 8 => "August"
  | 9 => "September" | 10 => "October" | 11 => "November" | 12 => "December"
  | _ => ""
  end.

Lemma month_name_words (m : Z) :
  nth (Z.to_nat m) month_name "" = month_in_words m.
Proof.
  destruct (Z_lt_le_dec m 13) as [Hlt|Hge].
  - destruct (Z_lt_le_dec m 1) as [Hneg|Hpos].
    + destruct m as [|p|p]; [reflexivity|lia|reflexivity].
    + assert (Hcases : m = 1 \/ m = 2 \/ m = 3 \/ m = 4 \/ m = 5 \/ m = 6 \/
                       m = 7 \/ m = 8 \/ m = 9 \/ m = 10 \/ m = 11 \/ m = 12) by lia.
      repeat (destruct Hcases as [->|Hcases]; [reflexivity|]).
      subst m. reflexivity.
  - rewrite nth_overflow by (cbn [month_name List.length]; lia).
    destruct m as [|p|p]; [lia| |lia].
    do 5 (try (destruct p as [p|p|]; try reflexivity; try lia)).
Qed.

Section ClearThenAppend.
Context {F : Type} {num : Number F}.

(** X14. After a clear, the first accepted append leaves a store of exactly
    that one transaction, without a [YearMonth] column, and the selector
    offers one choice, preselected: the year and month of the submitted
    date, labelled with the English name of the month and the year in
    decimal digits. *)
Theorem clear_then_append_X14 (inp : input.t F) (df : DataFrame F) :
  input.description inp <> "" -> input.vendor inp <> "" -> input.buyer inp <> "" ->
  snd (add_new_transaction inp (snd (clear_all_data df)))
    = mkDataFrame [submitted inp] None /\
  fst (month_selector (snd (add_new_transaction inp (snd (clear_all_data df)))))
    = inr (ui.input_select "selected_month" "Select Month"
             [ (pd.mkPeriod (datetime.year (input.date inp))
                  (datetime.month (input.date inp)),
                month_in_words (datetime.month (input.date inp)) ++ " "
                  ++ NilZero.string_of_int (Z.to_int (datetime.year (input.date inp)))) ]
             (Some (pd.mkPeriod (datetime.year (input.date inp))
                      (datetime.month (input.date inp))))).
Proof.
  intros Hd Hv Hb.
  rewrite add_new_transaction_accepts by assumption.
  split; [reflexivity|].
  rewrite <- month_name_words. reflexivity.
Qed.

End ClearThenAppend.

(** ** Concrete runs *)

(** The form filled in for a coffee on the first of March 2024, and the
    month the select of the page holds. *)
Definition coffee_form {F} {num : Number F} (selected : option pd.Period) : input.t F :=
  input.mk (datetime.mkdate 2024 3 1) "Coffee" (Some (of_cents 450)) "Corner Cafe"
    "Food" "John" "" (input.sent selected).

Definition john_form (selected : option pd.Period) : input.t Z := coffee_form selected.

(** The form of [john_form] with a category the select does not offer. *)
Definition bogus_form : input.t Z :=
  input.mk (datetime.mkdate 2024 3 1) "Coffee" (Some 450) "Corner Cafe" "Bogus" "John" ""
    (input.sent None).

(** The coffee form with the amount field emptied, March 2024 selected. *)
Definition blank_form : input.t spec_float :=
  input.mk (datetime.mkdate 2024 3 1) "Coffee" None "Corner Cafe" "Food" "John" ""
    (input.sent (Some (pd.mkPeriod 2024 3))).

(** A tea on the twentieth of February 2024, with February selected. *)
Definition tea_form : input.t spec_float :=
  input.mk (datetime.mkdate 2024 2 20) "Tea" (Some (of_cents 380)) "Corner Cafe" "Food"
    "Jane" "" (input.sent (Some (pd.mkPeriod 2024 2))).





(** Two purchases of one day. *)
Definition lunch_and_dinner : DataFrame spec_float :=
  mkDataFrame
    [ mkTransaction (datetime.mkdate 2024 3 1) "Lunch" (Some (of_cents 1250)) "Deli"
        "Food" "Jane" "";
      mkTransaction (datetime.mkdate 2024 3 1) "Dinner" (Some (of_cents 4300)) "Bistro"
        "Food" "Jane" "" ]
    None.

(** The January table of the seeded store, as the page shows it. *)
Example monthly_totals_january :
  fst (monthly_totals stable_kind (john_form (Some (pd.mkPeriod 2024 1))) get_sample_data)
  = inr [ Totals.mk "Food" "$-85.50" 1%nat;
          Totals.mk "Housing" "$-1,200.00" 1%nat;
          Totals.mk "Transportation" "$-45.00" 1%nat ].
Proof. vm_compute. reflexivity. Qed.

(** The same table computed in doubles, sorted by numpy's quicksort. *)
Example monthly_totals_january_binary64 :
  fst (monthly_totals quicksort (coffee_form (F := spec_float) (Some (pd.mkPeriod 2024 1)))
         get_sample_data)
  = inr [ Totals.mk "Food" "$-85.50" 1%nat;
          Totals.mk "Housing" "$-1,200.00" 1%nat;
          Totals.mk "Transportation" "$-45.00" 1%nat ].
Proof. vm_compute. reflexivity. Qed.

Example monthly_totals_february_binary64 :
  fst (monthly_totals quicksort (coffee_form (F := spec_float) (Some (pd.mkPeriod 2024 2)))
         get_sample_data)
  = inr [ Totals.mk "Communications" "$-75.00" 1%nat;
          Totals.mk "Food" "$-32.00" 1%nat;
          Totals.mk "Income" "$3,500.00" 1%nat ].
Proof. vm_compute. reflexivity. Qed.

(** The selector of the seeded store: February before January. *)
Example month_selector_seeded :
  fst (month_selector (get_sample_data (F := Z)))
  = inr (ui.input_select "selected_month" "Select Month"
           [ (pd.mkPeriod 2024 2, "February 2024");
             (pd.mkPeriod 2024 1, "January 2024") ]
           (Some (pd.mkPeriod 2024 2))).
Proof. vm_compute. reflexivity. Qed.


(** Two rows of one date come out in stored order: numpy sorts so few rows
    by insertion. *)
Example all_transactions_two_of_a_day :
  map Display.Description
    (match fst (all_transactions quicksort lunch_and_dinner) with
     | inr out => out
     | inl _ => []
     end)
  = ["Lunch"; "Dinner"].
Proof. vm_compute. reflexivity. Qed.







(** C9, counterexample.  A category outside [BUDGET_CATEGORIES] is accepted
    and stored. *)
Lemma add_new_transaction_bogus_category_C9_counterexample :
  ~ In (input.category bogus_form) BUDGET_CATEGORIES /\
  fst (add_new_transaction bogus_form get_sample_data) = inr tt /\
  nth_error (snapshot (snd (add_new_transaction bogus_form get_sample_data))) 6
    = Some (mkTransaction (datetime.mkdate 2024 3 1) "Coffee" (Some 450) "Corner Cafe"
              "Bogus" "John" "").
Proof.
  split.
  - cbn. intros H.
    repeat (destruct H as [H|H]; [discriminate H|]). exact H.
  - split; vm_compute; reflexivity.
Qed.

(** C8, on the seeded store.  Rendering the month selector or the monthly
    totals leaves the frame held by [budget_data] with a column it did not
    have; rendering the transaction table, which works on a copy, leaves it
    as it was. *)
Theorem readers_assign_YearMonth_C8 :
  let df : DataFrame Z := get_sample_data in
  let january := pd.mkPeriod 2024 1 in
  let february := pd.mkPeriod 2024 2 in
  YearMonth df = None /\
  YearMonth (snd (month_selector df)) =
    Some [Some january; Some january; Some january;
          Some february; Some february; Some february] /\
  snd (month_selector df) <> df /\
  snd (monthly_totals stable_kind (john_form (Some january)) df) <> df /\
  snd (all_transactions stable_kind df) = df.
Proof.
  cbv zeta. split; [reflexivity|]. split; [vm_compute; reflexivity|].
  split; [|split].
  - intros H. apply (f_equal YearMonth) in H. vm_compute in H. discriminate H.
  - intros H. apply (f_equal YearMonth) in H. vm_compute in H. discriminate H.
  - apply all_transactions_state.
Qed.

(** ** The theorems at concrete inputs *)

Lemma coffee_form_accepted {F} {num : Number F} (selected : option pd.Period) :
  input.description (coffee_form (F := F) selected) <> "" /\
  input.vendor (coffee_form (F := F) selected) <> "" /\
  input.buyer (coffee_form (F := F) selected) <> "".
Proof. repeat split; discriminate. Defined.

Lemma seeded_amounts_present {F} {num : Number F} (t : Transaction F) :
  In t (snapshot get_sample_data) -> Amount t <> None.
Proof.
  unfold snapshot, get_sample_data. cbn [rows In]. intros Hin.
  repeat (destruct Hin as [<-|Hin]; [cbn [Amount]; discriminate|]).
  contradiction.
Defined.



Lemma add_new_transaction_appends_C2_witness :
  input.description (john_form None) <> "" /\
  input.vendor (john_form None) <> "" /\
  input.buyer (john_form None) <> "" /\
  exists (df' : DataFrame Z) (t : Transaction Z),
    add_new_transaction (john_form None) get_sample_data = (inr tt, df') /\
    List.length (snapshot df') = 7%nat /\
    (forall i old, nth_error (snapshot get_sample_data) i = Some old ->
                   nth_error (snapshot df') i = Some old) /\
    snapshot df' = (snapshot get_sample_data ++ [t])%list /\
    nth_error (snapshot df') 6 = Some t /\
    Date t = datetime.mkdate 2024 3 1 /\
    Description t = "Coffee" /\
    Amount t = Some 450 /\
    Vendor t = "Corner Cafe" /\
    Budget_Category t = "Food" /\
    Buyer t = "John" /\
    Notes t = "".
Proof.
  destruct (coffee_form_accepted (F := Z) None) as [Hd [Hv Hb]].
  split; [exact Hd|]. split; [exact Hv|]. split; [exact Hb|].
  exact (add_new_transaction_appends_C2 (john_form None) get_sample_data Hd Hv Hb).
Defined.

Lemma add_new_transaction_any_category_C9_witness :
  input.description bogus_form <> "" /\
  input.vendor bogus_form <> "" /\
  input.buyer bogus_form <> "" /\
  fst (add_new_transaction bogus_form get_sample_data) = inr tt /\
  exists t : Transaction Z,
    snapshot (snd (add_new_transaction bogus_form get_sample_data))
      = (snapshot get_sample_data ++ [t])%list /\
    Budget_Category t = "Bogus".
Proof.
  assert (Hd : input.description bogus_form <> "") by discriminate.
  assert (Hv : input.vendor bogus_form <> "") by discriminate.
  assert (Hb : input.buyer bogus_form <> "") by discriminate.
  split; [exact Hd|]. split; [exact Hv|]. split; [exact Hb|].
  exact (add_new_transaction_any_category_C9 bogus_form get_sample_data Hd Hv Hb).
Defined.



Lemma monthly_totals_no_match_C10_witness :
  snapshot (get_sample_data (F := Z)) <> [] /\
  input.selected_month (john_form (Some (pd.mkPeriod 2023 12)))
    = input.sent (Some (pd.mkPeriod 2023 12)) /\
  (forall t : Transaction Z, In t (snapshot get_sample_data) ->
     to_period (Date t) <> pd.mkPeriod 2023 12) /\
  fst (monthly_totals stable_kind (john_form (Some (pd.mkPeriod 2023 12))) get_sample_data)
    = inr [].
Proof.
  assert (Hne : snapshot (get_sample_data (F := Z)) <> []) by discriminate.
  assert (Hno : forall t : Transaction Z, In t (snapshot get_sample_data) ->
                  to_period (Date t) <> pd.mkPeriod 2023 12).
  { intros t Hin. cbn in Hin.
    repeat (destruct Hin as [<-|Hin]; [discriminate|]). contradiction. }
  split; [exact Hne|]. split; [reflexivity|]. split; [exact Hno|].
  exact (monthly_totals_no_match_C10 stable_kind
           (john_form (Some (pd.mkPeriod 2023 12))) get_sample_data
           (pd.mkPeriod 2023 12) Hne eq_refl Hno).
Defined.

(** ** The further properties at concrete inputs *)

(** The coffee form after a month selector has rendered the seeded store. *)
Lemma handlers_frame_effects_X1_witness :
  snapshot (get_sample_data (F := spec_float)) <> [] /\
  input.description (coffee_form (F := spec_float) None) <> "" /\
  input.vendor (coffee_form (F := spec_float) None) <> "" /\
  input.buyer (coffee_form (F := spec_float) None) <> "" /\
  snd (month_selector (get_sample_data (F := spec_float))) = assigned get_sample_data /\
  YearMonth (snd (add_new_transaction (coffee_form None)
                    (assigned (get_sample_data (F := spec_float)))))
  = Some [ Some (pd.mkPeriod 2024 1); Some (pd.mkPeriod 2024 1); Some (pd.mkPeriod 2024 1);
           Some (pd.mkPeriod 2024 2); Some (pd.mkPeriod 2024 2); Some (pd.mkPeriod 2024 2);
           None ].
Proof.
  assert (Hne : snapshot (get_sample_data (F := spec_float)) <> []) by discriminate.
  destruct (coffee_form_accepted (F := spec_float) None) as [Hd [Hv Hb]].
  split; [exact Hne|]. split; [exact Hd|]. split; [exact Hv|]. split; [exact Hb|].
  destruct (handlers_frame_effects_X1 quicksort (coffee_form None)
              (get_sample_data (F := spec_float))) as [_ [Hrows _]].
  destruct (Hrows Hne) as [Hsel _].
  split; [exact Hsel|].
  destruct (handlers_frame_effects_X1 quicksort (coffee_form None)
              (assigned (get_sample_data (F := spec_float))))
    as [_ [_ [_ [Hadd _]]]].
  rewrite (Hadd Hd Hv Hb). reflexivity.
Defined.


Lemma month_selector_preselects_latest_X5_witness :
  snapshot (get_sample_data (F := Z)) <> [] /\
  exists choices,
    fst (month_selector (get_sample_data (F := Z))) =
      inr (ui.input_select "selected_month" "Select Month" choices
             (Some (pd.mkPeriod 2024 2))) /\
    hd_error (map fst choices) = Some (pd.mkPeriod 2024 2) /\
    (exists t : Transaction Z,
       In t (snapshot get_sample_data) /\ in_month (pd.mkPeriod 2024 2) (Date t)) /\
    (forall t : Transaction Z, In t (snapshot get_sample_data) ->
       datetime.year (Date t) < 2024 \/
       (datetime.year (Date t) = 2024 /\ datetime.month (Date t) <= 2)).
Proof.
  assert (Hne : snapshot (get_sample_data (F := Z)) <> []) by discriminate.
  split; [exact Hne|].
  destruct (month_selector_preselects_latest_X5 get_sample_data Hne)
    as [choices [selected [Hrun [Hhead [Hin Hmax]]]]].
  assert (Hsel : selected = pd.mkPeriod 2024 2).
  { pose proof Hrun as E. rewrite month_selector_seeded in E.
    injection E as _ E. symmetry. exact E. }
  subst selected.
  exists choices. split; [exact Hrun|]. split; [exact Hhead|].
  split; [exact Hin|exact Hmax].
Defined.

Lemma monthly_totals_nothing_to_show_X6_witness :
  snapshot (get_sample_data (F := spec_float)) <> [] /\
  monthly_totals quicksort
    (input.mk (datetime.mkdate 2024 3 1) "" (Some (of_cents 0)) "" "Housing" "" ""
       input.not_sent)
    (get_sample_data (F := spec_float))
  = (inl SilentException, get_sample_data) /\
  monthly_totals quicksort (coffee_form None) (get_sample_data (F := spec_float))
  = (inr [], get_sample_data) /\
  monthly_totals quicksort (coffee_form (Some (pd.mkPeriod 2024 1)))
    (mkDataFrame (F := spec_float) [] None)
  = (inr [], mkDataFrame [] None).
Proof.
  assert (Hne : snapshot (get_sample_data (F := spec_float)) <> []) by discriminate.
  split; [exact Hne|]. split; [|split].
  - destruct (monthly_totals_nothing_to_show_X6 quicksort
                (input.mk (datetime.mkdate 2024 3 1) "" (Some (of_cents 0)) "" "Housing"
                   "" "" input.not_sent)
                (get_sample_data (F := spec_float))) as [_ [Hunsent _]].
    exact (Hunsent Hne eq_refl).
  - destruct (monthly_totals_nothing_to_show_X6 quicksort (coffee_form None)
                (get_sample_data (F := spec_float))) as [_ [_ Hnone]].
    exact (Hnone eq_refl).
  - destruct (monthly_totals_nothing_to_show_X6 quicksort
                (coffee_form (Some (pd.mkPeriod 2024 1)))
                (mkDataFrame (F := spec_float) [] None)) as [Hempty _].
    exact (Hempty eq_refl).
Defined.

Lemma monthly_totals_counts_X8_witness :
  input.selected_month blank_form = input.sent (Some (pd.mkPeriod 2024 3)) /\
  exists out : list (Totals.row string),
    fst (monthly_totals quicksort blank_form
           (snd (add_new_transaction blank_form
                   (snd (add_new_transaction (coffee_form None) get_sample_data)))))
      = inr out /\
    list_sum (map Totals.Transaction_Count out) = 1%nat /\
    (forall r, In r out ->
       (Totals.Transaction_Count r = 0%nat <->
        forall t, In t (group_of (pd.mkPeriod 2024 3) (Totals.Category r)
                          (snd (add_new_transaction blank_form
                                  (snd (add_new_transaction (coffee_form None)
                                          get_sample_data))))) ->
                  Amount t = None)).
Proof.
  split; [reflexivity|].
  exact (monthly_totals_counts_X8 quicksort blank_form
           (snd (add_new_transaction blank_form
                   (snd (add_new_transaction (coffee_form None) get_sample_data))))
           (pd.mkPeriod 2024 3) eq_refl).
Defined.

Lemma selector_months_have_totals_X9_witness :
  input.selected_month (coffee_form (F := spec_float) (Some (pd.mkPeriod 2024 2)))
    = input.sent (Some (pd.mkPeriod 2024 2)) /\
  exists tag out,
    fst (month_selector (get_sample_data (F := spec_float))) = inr tag /\
    fst (monthly_totals quicksort (coffee_form (Some (pd.mkPeriod 2024 2)))
           get_sample_data) = inr out /\
    (In (pd.mkPeriod 2024 2) (listMonths tag) <-> out <> []).
Proof.
  split; [reflexivity|].
  exact (selector_months_have_totals_X9 quicksort
           (coffee_form (F := spec_float) (Some (pd.mkPeriod 2024 2))) get_sample_data
           (pd.mkPeriod 2024 2) eq_refl).
Defined.




Lemma append_adds_its_month_X11_witness :
  input.description (coffee_form (F := spec_float) None) <> "" /\
  input.vendor (coffee_form (F := spec_float) None) <> "" /\
  input.buyer (coffee_form (F := spec_float) None) <> "" /\
  exists before after,
    fst (month_selector (get_sample_data (F := spec_float))) = inr before /\
    fst (month_selector (snd (add_new_transaction (coffee_form None) get_sample_data)))
      = inr after /\
    (forall m, In m (listMonths after) <->
               In m (listMonths before) \/ m = pd.mkPeriod 2024 3).
Proof.
  destruct (coffee_form_accepted (F := spec_float) None) as [Hd [Hv Hb]].
  split; [exact Hd|]. split; [exact Hv|]. split; [exact Hb|].
  exact (append_adds_its_month_X11 (coffee_form None) get_sample_data Hd Hv Hb).
Defined.

Lemma append_keeps_other_months_X12_witness :
  input.description (coffee_form (F := spec_float) (Some (pd.mkPeriod 2024 1))) <> "" /\
  input.vendor (coffee_form (F := spec_float) (Some (pd.mkPeriod 2024 1))) <> "" /\
  input.buyer (coffee_form (F := spec_float) (Some (pd.mkPeriod 2024 1))) <> "" /\
  input.selected_month (coffee_form (F := spec_float) (Some (pd.mkPeriod 2024 1)))
    = input.sent (Some (pd.mkPeriod 2024 1)) /\
  pd.mkPeriod 2024 1
    <> to_period (input.date (coffee_form (F := spec_float) (Some (pd.mkPeriod 2024 1)))) /\
  input.amount (coffee_form (F := spec_float) (Some (pd.mkPeriod 2024 1))) <> None /\
  fst (monthly_totals quicksort (coffee_form (Some (pd.mkPeriod 2024 1)))
         (snd (add_new_transaction (coffee_form (Some (pd.mkPeriod 2024 1)))
                 (get_sample_data (F := spec_float)))))
  = inr [ Totals.mk "Food" "$-85.50" 1%nat;
          Totals.mk "Housing" "$-1,200.00" 1%nat;
          Totals.mk "Transportation" "$-45.00" 1%nat ].
Proof.
  destruct (coffee_form_accepted (F := spec_float) (Some (pd.mkPeriod 2024 1)))
    as [Hd [Hv Hb]].
  assert (Hother : pd.mkPeriod 2024 1
                   <> to_period (input.date (coffee_form (F := spec_float)
                                               (Some (pd.mkPeriod 2024 1)))))
    by discriminate.
  assert (Hamount : input.amount (coffee_form (F := spec_float)
                                    (Some (pd.mkPeriod 2024 1))) <> None)
    by discriminate.
  split; [exact Hd|]. split; [exact Hv|]. split; [exact Hb|].
  split; [reflexivity|]. split; [exact Hother|]. split; [exact Hamount|].
  destruct (append_keeps_other_months_X12 quicksort
              (coffee_form (Some (pd.mkPeriod 2024 1))) get_sample_data
              (pd.mkPeriod 2024 1) Hd Hv Hb eq_refl Hother)
    as [before [after [Hbefore [Hafter [_ [_ Hsame]]]]]].
  rewrite Hafter, (Hsame Hamount), <- Hbefore.
  exact monthly_totals_january_binary64.
Defined.

Lemma append_updates_its_row_X13_witness :
  input.description tea_form <> "" /\
  input.vendor tea_form <> "" /\
  input.buyer tea_form <> "" /\
  input.selected_month tea_form = input.sent (Some (pd.mkPeriod 2024 2)) /\
  in_month (pd.mkPeriod 2024 2) (input.date tea_form) /\
  input.amount tea_form <> None /\
  exists after : list (Totals.row string),
    fst (monthly_totals quicksort tea_form
           (snd (add_new_transaction tea_form get_sample_data))) = inr after /\
    (exists r, In r after /\ Totals.Category r = "Food" /\
               Totals.Transaction_Count r = 2%nat) /\
    (forall r, Totals.Category r <> "Food" ->
       (In r after <->
        In r [ Totals.mk "Communications" "$-75.00" 1%nat;
               Totals.mk "Food" "$-32.00" 1%nat;
               Totals.mk "Income" "$3,500.00" 1%nat ])).
Proof.
  assert (Hd : input.description tea_form <> "") by discriminate.
  assert (Hv : input.vendor tea_form <> "") by discriminate.
  assert (Hb : input.buyer tea_form <> "") by discriminate.
  assert (Hm : in_month (pd.mkPeriod 2024 2) (input.date tea_form))
    by (split; reflexivity).
  assert (Hamount : input.amount tea_form <> None) by discriminate.
  split; [exact Hd|]. split; [exact Hv|]. split; [exact Hb|].
  split; [reflexivity|]. split; [exact Hm|]. split; [exact Hamount|].
  destruct (append_updates_its_row_X13 quicksort tea_form get_sample_data
              (pd.mkPeriod 2024 2) Hd Hv Hb eq_refl Hm)
    as [before [after [Hbefore [Hafter [Hrow Hothers]]]]].
  exists after. split; [exact Hafter|]. split; [exact Hrow|].
  assert (Hsame : before = [ Totals.mk "Communications" "$-75.00" 1%nat;
                             Totals.mk "Food" "$-32.00" 1%nat;
                             Totals.mk "Income" "$3,500.00" 1%nat ]).
  { assert (E : fst (monthly_totals quicksort tea_form get_sample_data)
                = fst (monthly_totals quicksort (coffee_form (Some (pd.mkPeriod 2024 2)))
                         get_sample_data)) by reflexivity.
    rewrite E, monthly_totals_february_binary64 in Hbefore.
    injection Hbefore as <-. reflexivity. }
  rewrite <- Hsame. exact (Hothers Hamount).
Defined.

Lemma clear_then_append_X14_witness :
  input.description (coffee_form (F := spec_float) None) <> "" /\
  input.vendor (coffee_form (F := spec_float) None) <> "" /\
  input.buyer (coffee_form (F := spec_float) None) <> "" /\
  snd (add_new_transaction (coffee_form None)
         (snd (clear_all_data (get_sample_data (F := spec_float)))))
    = mkDataFrame
        [ mkTransaction (datetime.mkdate 2024 3 1) "Coffee" (Some (of_cents 450))
            "Corner Cafe" "Food" "John" "" ]
        None /\
  fst (month_selector
         (snd (add_new_transaction (coffee_form None)
                 (snd (clear_all_data (get_sample_data (F := spec_float)))))))
    = inr (ui.input_select "selected_month" "Select Month"
             [(pd.mkPeriod 2024 3, "March 2024")] (Some (pd.mkPeriod 2024 3))).
Proof.
  destruct (coffee_form_accepted (F := spec_float) None) as [Hd [Hv Hb]].
  split; [exact Hd|]. split; [exact Hv|]. split; [exact Hb|].
  exact (clear_then_append_X14 (coffee_form None) get_sample_data Hd Hv Hb).
Defined.

Lemma all_transactions_shows_every_row_X15_witness :
  (exists t, In t (snapshot (snd (add_new_transaction blank_form get_sample_data))) /\
             Amount t = None) /\
  all_transactions quicksort (snd (add_new_transaction blank_form get_sample_data))
    = (inl TypeError, snd (add_new_transaction blank_form get_sample_data)) /\
  (forall t : Transaction spec_float, In t (snapshot get_sample_data) -> Amount t <> None) /\
  exists (shown : list (Transaction spec_float)) (out : list Display.row),
    all_transactions quicksort get_sample_data = (inr out, get_sample_data) /\
    List.length out = 6%nat /\
    Forall2 shown_as shown out /\
    Permutation (snapshot get_sample_data) shown.
Proof.
  assert (Hblank : exists t,
             In t (snapshot (snd (add_new_transaction blank_form get_sample_data))) /\
             Amount t = None).
  { exists (submitted blank_form). split; [|reflexivity].
    unfold snapshot. vm_compute. do 6 right. left. reflexivity. }
  split; [exact Hblank|].
  destruct (all_transactions_shows_every_row_X15 quicksort
              (snd (add_new_transaction blank_form get_sample_data))) as [Hraise _].
  split; [exact (Hraise Hblank)|].
  split; [exact seeded_amounts_present|].
  destruct (all_transactions_shows_every_row_X15 quicksort
              (get_sample_data (F := spec_float))) as [_ Hshow].
  exact (Hshow seeded_amounts_present).
Defined.
